(** * TableEditor: Multi-Markdown and Pandoc table syntaxes

    A shallow embedding of [table_multi_markdown_syntax.py] and
    [table_pandoc_syntax.py]: separator-cell grammars, alignment inference,
    width arithmetic, rendering of alignment columns, and the structural
    edit operations of the two table drivers. *)

From Stdlib Require Import List ZArith Ascii String Bool Lia QArith Qround.
Import ListNotations.

Local Open Scope Z_scope.

(** ** Python strings

    A [str] is a sequence of code points; the embedding keeps the Latin-1
    range, one [ascii] per code point, which covers every character the two
    modules test for. *)

Module PyStr.

Definition str := list ascii.

Definition lit (s : string) : str := list_ascii_of_string s.

(** [Py_UNICODE_ISSPACE] restricted to code points below 256: it decides
    both [str.strip()] and the regular-expression class [\s]. *)
Definition isspace (c : ascii) : bool :=
  let n := N_of_ascii c in
  ((9 <=? n) && (n <=? 13) || (28 <=? n) && (n <=? 32)
   || (n =? 133) || (n =? 160))%N.

Fixpoint lstrip (s : str) : str :=
  match s with
  | c :: t => if isspace c then lstrip t else s
  | [] => []
  end.

Definition rstrip (s : str) : str := rev (lstrip (rev s)).

Definition strip (s : str) : str := rstrip (lstrip s).

(** [s.count(c)] and [c in s] for a one-character needle [c]. *)
Definition count (c : ascii) (s : str) : Z :=
  Z.of_nat (List.length (filter (Ascii.eqb c) s)).

Definition contains (c : ascii) (s : str) : bool := existsb (Ascii.eqb c) s.

Fixpoint startswith (p s : str) : bool :=
  match p, s with
  | [], _ => true
  | a :: p', b :: s' => Ascii.eqb a b && startswith p' s'
  | _ :: _, [] => false
  end.

Definition endswith (p s : str) : bool := startswith (rev p) (rev s).

Definition len (s : str) : Z := Z.of_nat (List.length s).

(** [s * n]: the empty string when [n <= 0]. *)
Definition mul (s : str) (n : Z) : str :=
  List.concat (repeat s (Z.to_nat n)).

End PyStr.
Import PyStr.

(** ** Python sequences: indexing and [list.insert] *)

Inductive exn := IndexError | ZeroDivisionError | OverflowError.

Definition result (A : Type) : Type := (exn + A)%type.

Definition ok {A} (a : A) : result A := inr a.
Definition raise {A} (e : exn) : result A := inl e.
Definition bind {A B} (m : result A) (k : A -> result B) : result B :=
  match m with inl e => inl e | inr a => k a end.

Notation "x <- m ;; k" := (bind m (fun x => k))
  (at level 61, m at next level, right associativity).

(** [l[i]], negative indices counting from the end. *)
Definition getitem {A} (l : list A) (i : Z) : result A :=
  let n := Z.of_nat (List.length l) in
  let j := if i <? 0 then i + n else i in
  if (j <? 0) || (n <=? j) then raise IndexError
  else match nth_error l (Z.to_nat j) with
       | Some a => ok a
       | None => raise IndexError
       end.

(** [l.insert(i, x)] for an index that fits [Py_ssize_t]
    ([-2^63 <= i < 2^63]): the index is clamped to [0 .. len(l)] after the
    adjustment of a negative one.  Outside that range CPython raises
    [OverflowError] before it inserts; the statements about indices out of
    the bounds of a table carry the range as a hypothesis. *)
Definition list_insert {A} (l : list A) (i : Z) (x : A) : list A :=
  let n := Z.of_nat (List.length l) in
  let j := if i <? 0 then Z.max 0 (i + n) else Z.min i n in
  firstn (Z.to_nat j) l ++ x :: skipn (Z.to_nat j) l.

(** ** True division of integers

    [a / b] under [from __future__ import division] is the binary64 number
    nearest to the quotient of the two integers, ties going to the even
    significand; a binary64 number is [m * 2^k] with [|m| < 2^53] and
    [-1074 <= k <= 971]. *)

Module PyFloat.

(** The integer nearest to [num / den], ties to even ([num >= 0],
    [den > 0]). *)
Definition round_half_even (num den : Z) : Z :=
  let q := num / den in
  let r := num mod den in
  if 2 * r <? den then q
  else if den <? 2 * r then q + 1
  else if Z.even q then q else q + 1.

(** The [e] with [2^e <= a / b < 2^(e+1)], for positive [a] and [b]. *)
Definition binade (a b : Z) : Z :=
  let e0 := Z.log2 a - Z.log2 b in
  let reached :=
    if 0 <=? e0 then b * 2 ^ e0 <=? a else b <=? a * 2 ^ (- e0) in
  if reached then e0 else e0 - 1.

(** The rational [m * 2^k]. *)
Definition value (m k : Z) : Q :=
  if 0 <=? k then inject_Z (m * 2 ^ k) else m # Z.to_pos (2 ^ (- k)).

(** The quotient of two positive integers: 53 significant bits in the
    normal range, steps of [2^-1074] below it, [OverflowError] from
    [2^1024] on. *)
Definition true_divide_pos (a b : Z) : result Q :=
  let e := binade a b in
  let k := Z.max e (-1022) - 52 in
  let m :=
    if 0 <=? k then round_half_even a (b * 2 ^ k)
    else round_half_even (a * 2 ^ (- k)) b in
  if (0 <=? k) && (2 ^ 1024 <=? m * 2 ^ k) then raise OverflowError
  else ok (value m k).

Definition true_divide (a b : Z) : result Q :=
  if b =? 0 then raise ZeroDivisionError
  else if a =? 0 then ok 0%Q
  else
    x <- true_divide_pos (Z.abs a) (Z.abs b) ;;
    ok (if xorb (a <? 0) (b <? 0) then (- x)%Q else x).

(** [int(math.ceil(x))]. *)
Definition ceil (x : Q) : Z := Qceiling x.

End PyFloat.

(** ** Columns *)

Inductive Align := ALIGN_LEFT | ALIGN_RIGHT | ALIGN_CENTER.

(** The attributes of [tbase.Column] that the two modules read or assign. *)
Record Column := mkColumn {
  colspan : Z;
  col_len : Z;
  left_border_text : str;
  right_border_text : str
}.

Definition set_colspan (k : Z) (c : Column) : Column :=
  {| colspan := k; col_len := col_len c;
     left_border_text := left_border_text c;
     right_border_text := right_border_text c |}.

Definition set_col_len (w : Z) (c : Column) : Column :=
  {| colspan := colspan c; col_len := w;
     left_border_text := left_border_text c;
     right_border_text := right_border_text c |}.

Definition set_borders (l r : str) (c : Column) : Column :=
  {| colspan := colspan c; col_len := col_len c;
     left_border_text := l; right_border_text := r |}.

(** [sum(xs)]. *)
Definition py_sum (xs : list Z) : Z := fold_left Z.add xs 0.

(** Every column class extends [tbase.Column]; attribute assignment such as
    [column.colspan = k] goes through the base part. *)
Class ColumnLike (C : Type) := {
  column_base : C -> Column;
  with_column_base : Column -> C -> C;
  column_base_with : forall b c, column_base (with_column_base b c) = b
}.

(** ** Regular expressions

    The patterns of the two parsers use only character classes,
    concatenation, [?], [+] and [*] between [^] and [$]; [re.match] on such
    a pattern is decided by Brzozowski derivatives. *)

Module Regex.

Inductive regex :=
| Void
| Eps
| Class (p : ascii -> bool)
| Cat (r1 r2 : regex)
| Alt (r1 r2 : regex)
| Star (r : regex).

Definition Opt (r : regex) : regex := Alt r Eps.
Definition Plus (r : regex) : regex := Cat r (Star r).
Definition Chr (c : ascii) : regex := Class (Ascii.eqb c).

Fixpoint nullable (r : regex) : bool :=
  match r with
  | Void => false
  | Eps => true
  | Class _ => false
  | Cat r1 r2 => nullable r1 && nullable r2
  | Alt r1 r2 => nullable r1 || nullable r2
  | Star _ => true
  end.

Fixpoint deriv (a : ascii) (r : regex) : regex :=
  match r with
  | Void => Void
  | Eps => Void
  | Class p => if p a then Eps else Void
  | Cat r1 r2 =>
      if nullable r1 then Alt (Cat (deriv a r1) r2) (deriv a r2)
      else Cat (deriv a r1) r2
  | Alt r1 r2 => Alt (deriv a r1) (deriv a r2)
  | Star r1 => Cat (deriv a r1) (Star r1)
  end.

Fixpoint fullmatch (r : regex) (s : str) : bool :=
  match s with
  | [] => nullable r
  | a :: t => fullmatch (deriv a r) t
  end.

(** [re.match("^" body "$", s)]: [$] matches at the end of the string and
    also just before a newline that ends it. *)
Definition re_match (body : regex) (s : str) : bool :=
  fullmatch body s
  || match rev s with
     | "010"%char :: t => fullmatch body (rev t)
     | _ => false
     end.

(** The words of a regular expression. *)
Inductive lang : regex -> str -> Prop :=
| lang_eps : lang Eps []
| lang_class p a : p a = true -> lang (Class p) [a]
| lang_cat r1 r2 s1 s2 : lang r1 s1 -> lang r2 s2 -> lang (Cat r1 r2) (s1 ++ s2)
| lang_alt_l r1 r2 s : lang r1 s -> lang (Alt r1 r2) s
| lang_alt_r r1 r2 s : lang r2 s -> lang (Alt r1 r2) s
| lang_star_nil r : lang (Star r) []
| lang_star_cons r s1 s2 :
    lang r s1 -> lang (Star r) s2 -> lang (Star r) (s1 ++ s2).

(** Every character class of [r] lies inside [P]. *)
Fixpoint classes_within (P : ascii -> bool) (r : regex) : Prop :=
  match r with
  | Void | Eps => True
  | Class p => forall a, p a = true -> P a = true
  | Cat r1 r2 | Alt r1 r2 => classes_within P r1 /\ classes_within P r2
  | Star r1 => classes_within P r1
  end.

(** [\s*:?[c]+:?\s*], the body shared by the three separator patterns
    (the group of the Multi-Markdown one captures and does not change the
    words matched). *)
Definition separator_cell (c : ascii) : regex :=
  Cat (Star (Class isspace))
      (Cat (Opt (Chr ":"))
           (Cat (Plus (Chr c)) (Cat (Opt (Chr ":")) (Star (Class isspace))))).

End Regex.

(** ** Tokenizer output, rows, tables and cursor positions *)

Module LineCell.
Record t := mk {
  text : str;
  left_border_text : str;
  right_border_text : str
}.
End LineCell.

Inductive RowClass :=
| DataRow
| SeparatorRow (separator : str)
| MultiMarkdownAlignRow
| PandocAlignRow (separator : str).

(** [tbase.Row.__init__] leaves [columns] empty; packing fills them in. *)
Record Row := mkRow {
  row_class : RowClass;
  columns : list Column
}.

Definition new_row (k : RowClass) : Row := mkRow k [].

(** Modelled from the spec: the [is_separator()] of [tbase.DataRow] and
    [tborder.SeparatorRow], whose modules are not among the sources: a
    separator row answers [True], a data row [False].  The two align-row
    classes of the sources answer [True]. *)
Definition class_is_separator (k : RowClass) : bool :=
  match k with
  | MultiMarkdownAlignRow | PandocAlignRow _ => true
  | SeparatorRow _ => true
  | DataRow => false
  end.

Definition is_separator (r : Row) : bool := class_is_separator (row_class r).

(** [isinstance(row, PandocAlignRow)]. *)
Definition is_PandocAlignRow (r : Row) : bool :=
  match row_class r with
  | PandocAlignRow _ => true
  | _ => false
  end.

Record Table := mkTable { rows : list Row }.

Record TablePos := mkTablePos { row_num : Z; field_num : Z }.

Definition classes (t : Table) : list RowClass := map row_class (rows t).

(** [table.rows.insert(i, row)]. *)
Definition rows_insert (t : Table) (i : Z) (r : Row) : Table :=
  mkTable (list_insert (rows t) i r).

(** A cursor position is in bounds when its row exists. *)
Definition in_bounds (t : Table) (p : TablePos) : Prop :=
  0 <= row_num p < Z.of_nat (List.length (rows t)).

(** ** The Multi-Markdown syntax *)

Module MultiMarkdown.

Record MultiMarkdownAlignColumn := mkMMAlign {
  base : Column;
  _align_follow : option Align
}.

(** The branches of [MultiMarkdownAlignColumn.__init__] that choose
    [_align_follow]; [col[0]] and [col[-1]] raise on an empty [col]. *)
Definition init_align (data : str) : result (option Align) :=
  let col := strip data in
  if count ":" col =? 2 then ok (Some ALIGN_CENTER)
  else
    c0 <- getitem col 0 ;;
    if Ascii.eqb c0 ":" then ok (Some ALIGN_LEFT)
    else
      c1 <- getitem col (-1) ;;
      if Ascii.eqb c1 ":" then ok (Some ALIGN_RIGHT)
      else ok None.

(** [MultiMarkdownAlignColumn.__init__]; [base0] is the state left by
    [tbase.Column.__init__]. *)
Definition init (base0 : Column) (data : str)
  : result MultiMarkdownAlignColumn :=
  a <- init_align data ;; ok (mkMMAlign base0 a).

Definition align_follow (c : MultiMarkdownAlignColumn) : option Align :=
  _align_follow c.

#[global] Instance MultiMarkdownAlignColumn_ColumnLike
  : ColumnLike MultiMarkdownAlignColumn :=
  {| column_base := base;
     with_column_base := fun b c => mkMMAlign b (_align_follow c);
     column_base_with := fun _ _ => eq_refl |}.

Definition total_min_len (c : MultiMarkdownAlignColumn) : Z :=
  5 + colspan (base c) - 1.

(** [int(math.ceil(self.total_min_len() / self.colspan))] under
    [from __future__ import division]: the quotient is a binary64
    number. *)
Definition min_len (c : MultiMarkdownAlignColumn) : result Z :=
  x <- PyFloat.true_divide (total_min_len c) (colspan (base c)) ;;
  ok (PyFloat.ceil x).

(** [MultiMarkdownAlignRow.new_empty_column] and [create_column]. *)
Definition new_empty_column (base0 : Column)
  : result MultiMarkdownAlignColumn := init base0 (lit "-").

Definition row_create_column (base0 : Column) (text : str)
  : result MultiMarkdownAlignColumn := init base0 text.

(** The lead and trail characters [render] chooses. *)
Definition render_ends (a : option Align) : str * str :=
  match a with
  | Some ALIGN_CENTER => (lit ":", lit ":")
  | Some ALIGN_LEFT => (lit ":", lit "-")
  | Some ALIGN_RIGHT => (lit "-", lit ":")
  | None => (lit "-", lit "-")
  end.

(** [MultiMarkdownAlignColumn.render]; [pseudo_columns] is the attribute of
    [tbase.Column] that lists the placeholder columns a span covers. *)
Definition render (c : MultiMarkdownAlignColumn) (pseudo_columns : list Column)
  : str :=
  let total_col_len :=
    col_len (base c) + (colspan (base c) - 1)
    + py_sum (map col_len pseudo_columns) in
  let total_col_len := total_col_len - (colspan (base c) - 1) in
  let lead := fst (render_ends (_align_follow c)) in
  let trail := snd (render_ends (_align_follow c)) in
  lit " " ++ lead ++ mul (lit "-") (total_col_len - 4) ++ trail ++ lit " ".

(** [MultiMarkdownAlignColumn.PATTERN]. *)
Definition PATTERN : Regex.regex := Regex.separator_cell "-".

Section Parser.
Context {C : Type} `{ColumnLike C}.

(** [tbase.BaseTableParser.create_column], inherited. *)
Variable base_create_column : LineCell.t -> result C.

(** [MultiMarkdownTableParser.create_column]. *)
Definition create_column (line_cell : LineCell.t) : result C :=
  column <- base_create_column line_cell ;;
  if 1 <? len (LineCell.right_border_text line_cell) then
    ok (with_column_base
          (set_colspan (len (LineCell.right_border_text line_cell))
                       (column_base column))
          column)
  else ok column.
End Parser.

Section Driver.
(** [Table.pack] and [Table.insert_empty_row], inherited from
    [table_base]. *)
Variable pack : Table -> Table.
Variable insert_empty_row : Table -> Z -> Table.

Definition editor_insert_single_hline (table : Table) (table_pos : TablePos)
  : Table * (str * TablePos) :=
  let table :=
    rows_insert table (row_num table_pos + 1) (new_row MultiMarkdownAlignRow) in
  let table := pack table in
  (table, (lit "Single separator row inserted",
           mkTablePos (row_num table_pos) (field_num table_pos))).

Definition editor_insert_hline_and_move (table : Table) (table_pos : TablePos)
  : result (Table * (str * TablePos)) :=
  let table :=
    rows_insert table (row_num table_pos + 1) (new_row MultiMarkdownAlignRow) in
  let table := pack table in
  table <-
    (if row_num table_pos + 2 <? Z.of_nat (List.length (rows table)) then
       r <- getitem (rows table) (row_num table_pos + 2) ;;
       if is_separator r
       then ok (insert_empty_row table (row_num table_pos + 2))
       else ok table
     else ok (insert_empty_row table (row_num table_pos + 2))) ;;
  ok (table, (lit "Single separator row inserted",
              mkTablePos (row_num table_pos + 2) 0)).
End Driver.

End MultiMarkdown.

(** ** The Pandoc grid syntax *)

Module Pandoc.

Record PandocAlignColumn := mkPandocAlign {
  base : Column;
  separator : str;
  _align_follow : option Align
}.

#[global] Instance PandocAlignColumn_ColumnLike : ColumnLike PandocAlignColumn :=
  {| column_base := base;
     with_column_base := fun b c => mkPandocAlign b (separator c) (_align_follow c);
     column_base_with := fun _ _ => eq_refl |}.

(** [PandocAlignColumn._parse_alignment]. *)
Definition _parse_alignment (sep : str) : option Align :=
  let core := strip sep in
  if startswith (lit ":") core && endswith (lit ":") core then Some ALIGN_CENTER
  else if startswith (lit ":") core then Some ALIGN_LEFT
  else if endswith (lit ":") core then Some ALIGN_RIGHT
  else None.

(** [PandocAlignColumn.__init__]; [base0] is the state left by
    [tbase.Column.__init__]. *)
Definition init (base0 : Column) (separator : str) : PandocAlignColumn :=
  mkPandocAlign base0 separator (_parse_alignment separator).

Definition align_follow (c : PandocAlignColumn) : option Align :=
  _align_follow c.

Definition min_len (c : PandocAlignColumn) : Z := 3.

(** A rendered string together with the count of every repetition
    [base_char * n] evaluated on the way, in order. *)
Definition Logged (A : Type) : Type := (list Z * A)%type.

Definition repeat_str (s : str) (n : Z) : Logged str := ([n], mul s n).

Definition lmap {A B} (f : A -> B) (x : Logged A) : Logged B :=
  (fst x, f (snd x)).

Definition base_char (c : PandocAlignColumn) : str :=
  if contains "=" (separator c) then lit "=" else lit "-".

(** [PandocAlignColumn.render]. *)
Definition render_log (c : PandocAlignColumn) : Logged str :=
  let base_char := base_char c in
  let col_len := col_len (base c) in
  match _align_follow c with
  | Some ALIGN_CENTER =>
      if col_len <=? 2 then repeat_str base_char col_len
      else lmap (fun fill => lit ":" ++ fill ++ lit ":")
                (repeat_str base_char (col_len - 2))
  | Some ALIGN_LEFT =>
      if col_len <=? 1 then repeat_str base_char col_len
      else lmap (fun fill => lit ":" ++ fill)
                (repeat_str base_char (col_len - 1))
  | Some ALIGN_RIGHT =>
      if col_len <=? 1 then repeat_str base_char col_len
      else lmap (fun fill => fill ++ lit ":")
                (repeat_str base_char (col_len - 1))
  | None => repeat_str base_char col_len
  end.

Definition render (c : PandocAlignColumn) : str := snd (render_log c).

Definition repetitions (c : PandocAlignColumn) : list Z := fst (render_log c).

(** [PandocAlignRow.new_empty_column] and [create_column] of a row whose
    [separator] attribute is [row_separator]. *)
Definition new_empty_column (base0 : Column) (row_separator : str)
  : PandocAlignColumn := init base0 (mul row_separator 3).

Definition row_create_column (base0 : Column) (text : str)
  : PandocAlignColumn := init base0 text.

(** The two borders [PandocAlignRow.render] reads from [self.syntax]. *)
Record Syntax := mkSyntax {
  hline_out_border : str;
  hline_in_border : str
}.

(** The borders [PandocTableSyntax.__init__] sets. *)
Definition PandocTableSyntax : Syntax := mkSyntax (lit "+") (lit "+").

(** The loop of [PandocAlignRow.render] from index [ind] on, [r] being the
    text built so far. *)
Fixpoint render_columns (syntax : Syntax) (ind : Z)
         (columns : list PandocAlignColumn) (r : str) : str :=
  match columns with
  | [] => r
  | column :: rest =>
      let r := if negb (ind =? 0) then r ++ hline_in_border syntax else r in
      let r := r ++ render column in
      render_columns syntax (ind + 1) rest r
  end.

(** [PandocAlignRow.render]. *)
Definition row_render (syntax : Syntax) (columns : list PandocAlignColumn)
  : str :=
  let r := hline_out_border syntax in
  let r := render_columns syntax 0 columns r in
  r ++ hline_out_border syntax.

(** The two patterns of [PandocTableParser]. *)
Definition single_pattern : Regex.regex := Regex.separator_cell "-".
Definition double_pattern : Regex.regex := Regex.separator_cell "=".

Definition _is_single_row_separator_with_align (str_cols : list str) : bool :=
  if Z.of_nat (List.length str_cols) =? 0 then false
  else forallb (Regex.re_match single_pattern) str_cols.

Definition _is_double_row_separator_with_align (str_cols : list str) : bool :=
  if Z.of_nat (List.length str_cols) =? 0 then false
  else forallb (Regex.re_match double_pattern) str_cols.

Definition _has_alignment_markers (str_cols : list str) : bool :=
  existsb (contains ":") str_cols.

(** Modelled from the spec: [create_data_row], inherited from
    [tborder.BorderTableParser], which is not among the sources: a line
    that matches no separator pattern becomes a data row. *)
Definition create_data_row (str_cols : list str) : RowClass := DataRow.

(** [PandocTableParser.create_row] on [line.str_cols()]. *)
Definition create_row (str_cols : list str) : RowClass :=
  if _is_single_row_separator_with_align str_cols then
    if _has_alignment_markers str_cols then PandocAlignRow (lit "-")
    else SeparatorRow (lit "-")
  else if _is_double_row_separator_with_align str_cols then
    if _has_alignment_markers str_cols then PandocAlignRow (lit "=")
    else SeparatorRow (lit "=")
  else create_data_row str_cols.

Section Parser.
Context {C : Type}.

(** [tborder.BorderTableParser.create_column], inherited. *)
Variable base_create_column : Row -> LineCell.t -> result C.

(** [PandocTableParser.create_column]; [base0] is the state left by
    [tbase.Column.__init__] in the column of an alignment row. *)
Definition create_column (base0 : Column) (row : Row) (line_cell : LineCell.t)
  : result (PandocAlignColumn + C) :=
  if is_PandocAlignRow row then
    let column := row_create_column base0 (LineCell.text line_cell) in
    let column :=
      with_column_base
        (set_borders (LineCell.left_border_text line_cell)
                     (LineCell.right_border_text line_cell)
                     (column_base column))
        column in
    ok (inl column)
  else
    column <- base_create_column row line_cell ;;
    ok (inr column).
End Parser.

Section Driver.
(** [Table.pack], inherited from [table_base]. *)
Variable pack : Table -> Table.

Definition editor_insert_single_hline (table : Table) (table_pos : TablePos)
  : Table * (str * TablePos) :=
  let has_alignment := existsb is_PandocAlignRow (rows table) in
  let table :=
    if has_alignment then
      rows_insert table (row_num table_pos + 1)
                  (new_row (PandocAlignRow (lit "-")))
    else
      rows_insert table (row_num table_pos + 1)
                  (new_row (SeparatorRow (lit "-"))) in
  let table := pack table in
  (table, (lit "Single separator row inserted",
           mkTablePos (row_num table_pos) (field_num table_pos))).

Definition editor_insert_double_hline (table : Table) (table_pos : TablePos)
  : Table * (str * TablePos) :=
  let has_alignment := existsb is_PandocAlignRow (rows table) in
  let table :=
    if has_alignment then
      rows_insert table (row_num table_pos + 1)
                  (new_row (PandocAlignRow (lit "=")))
    else
      rows_insert table (row_num table_pos + 1)
                  (new_row (SeparatorRow (lit "="))) in
  let table := pack table in
  (table, (lit "Double separator row inserted",
           mkTablePos (row_num table_pos) (field_num table_pos))).
End Driver.

End Pandoc.

(** ** Vocabulary of the statements *)

(** A separator cell: an optional leading colon, [S n] border characters
    [c], an optional trailing colon. *)
Definition separator_text (lead : bool) (c : ascii) (n : nat) (trail : bool)
  : str :=
  (if lead then [":"%char] else []) ++ repeat c (S n)
  ++ (if trail then [":"%char] else []).

(** The alignment announced by the colons of a separator cell. *)
Definition colon_alignment (lead trail : bool) : option Align :=
  match lead, trail with
  | true, true => Some ALIGN_CENTER
  | true, false => Some ALIGN_LEFT
  | false, true => Some ALIGN_RIGHT
  | false, false => None
  end.

(** The characters a separator pattern with border [c] can match. *)
Definition separator_char (c a : ascii) : bool :=
  isspace a || Ascii.eqb ":" a || Ascii.eqb c a.

(** [new] is [old] with one more row class [K] at index [i]: [K] stands at
    [i], there is one row more, and taking it out gives [old] back, so the
    rows of [old] keep their order. *)
Definition inserted_at (K : RowClass) (i : nat) (old new : list RowClass)
  : Prop :=
  new = firstn i old ++ K :: skipn i old
  /\ nth_error new i = Some K
  /\ List.length new = S (List.length old)
  /\ firstn i new ++ skipn (S i) new = old.

(** A packing that instantiates the statements about the drivers: every
    row is padded with empty columns up to the widest row; no row is added,
    dropped or moved. *)
Definition pack_pad (t : Table) : Table :=
  let width := fold_right Nat.max 0%nat (map (fun r => List.length (columns r)) (rows t)) in
  mkTable
    (map (fun r =>
            mkRow (row_class r)
                  (columns r
                   ++ repeat (mkColumn 1 0 (lit "|") (lit "|"))
                             (width - List.length (columns r))))
         (rows t)).

(** An [insert_empty_row] that instantiates the statements: a new data row
    at index [i], then packing. *)
Definition insert_empty_row_pad (t : Table) (i : Z) : Table :=
  pack_pad (rows_insert t i (new_row DataRow)).

(** An alignment is expressed. *)
Definition expresses_alignment (a : option Align) : bool :=
  match a with Some _ => true | None => false end.

(** The width a Multi-Markdown alignment column is rendered at: its own
    [col_len] and the [col_len] of the placeholder columns of its span. *)
Definition mm_total_col_len (c : MultiMarkdown.MultiMarkdownAlignColumn)
           (pseudo_columns : list Column) : Z :=
  col_len (MultiMarkdown.base c) + py_sum (map col_len pseudo_columns).

(** [sep.join(parts)]. *)
Fixpoint py_join (sep : str) (parts : list str) : str :=
  match parts with
  | [] => []
  | [x] => x
  | x :: rest => x ++ sep ++ py_join sep rest
  end.

(** A column with its [col_len] set to [w], as packing leaves it. *)
Definition pandoc_at_width (w : Z) (c : Pandoc.PandocAlignColumn)
  : Pandoc.PandocAlignColumn :=
  with_column_base (set_col_len w (Pandoc.base c)) c.

(** [new] is [old] after [old.insert(i, K)], for any integer [i]: one row
    more, the old rows in their order; the place of [K] follows the index
    where it is in range, the end of the list above it, and the count from
    the end below zero, down to the front. *)
Definition inserted_clamped (K : RowClass) (i : Z) (old new : list RowClass)
  : Prop :=
  let n := Z.of_nat (List.length old) in
  (exists l1 l2, old = l1 ++ l2 /\ new = l1 ++ K :: l2)
  /\ (0 <= i <= n ->
      new = firstn (Z.to_nat i) old ++ K :: skipn (Z.to_nat i) old)
  /\ (n <= i -> new = old ++ [K])
  /\ (- n <= i < 0 ->
      new = firstn (Z.to_nat (n + i)) old ++ K :: skipn (Z.to_nat (n + i)) old)
  /\ (i <= - n -> new = K :: old).

(** An integer that fits [Py_ssize_t], the range of the indices
    [list.insert] accepts. *)
Definition fits_ssize_t (i : Z) : Prop := - 2 ^ 63 <= i < 2 ^ 63.

(** * Properties *)

(** ** Strings and sequences *)

Section StringFacts.

Lemma lstrip_nonspace a s : isspace a = false -> lstrip (a :: s) = a :: s.
Proof. intros Ha; simpl; now rewrite Ha. Qed.

Lemma rstrip_nonspace z s : isspace z = false -> rstrip (s ++ [z]) = s ++ [z].
Proof.
  intros Hz; unfold rstrip.
  rewrite rev_app_distr; simpl.
  rewrite Hz; simpl.
  now rewrite rev_involutive.
Qed.

(** A word that neither starts nor ends with white space is its own strip. *)
Lemma strip_ends a z m m' :
  a :: m = m' ++ [z] -> isspace a = false -> isspace z = false ->
  strip (a :: m) = a :: m.
Proof.
  intros E Ha Hz; unfold strip.
  rewrite lstrip_nonspace by assumption.
  rewrite E; now apply rstrip_nonspace.
Qed.

Lemma In_lstrip c s : isspace c = false -> In c s -> In c (lstrip s).
Proof.
  intros Hc; induction s as [|a t IH]; simpl; [tauto|].
  intros [->|Hin].
  - rewrite Hc; now left.
  - destruct (isspace a); [auto | now right].
Qed.

Lemma In_strip c s : isspace c = false -> In c s -> In c (strip s).
Proof.
  intros Hc Hin; unfold strip, rstrip.
  apply in_rev; rewrite rev_involutive.
  apply In_lstrip; [assumption|].
  apply in_rev; rewrite rev_involutive.
  now apply In_lstrip.
Qed.

Lemma lstrip_incl s : incl (lstrip s) s.
Proof.
  induction s as [|a t IH]; simpl; [easy|].
  destruct (isspace a); [now apply incl_tl | apply incl_refl].
Qed.

Lemma strip_incl s : incl (strip s) s.
Proof.
  unfold strip, rstrip; intros c Hc.
  apply in_rev, lstrip_incl in Hc.
  apply in_rev, lstrip_incl in Hc.
  exact Hc.
Qed.

Lemma count_app c s1 s2 : count c (s1 ++ s2) = count c s1 + count c s2.
Proof. unfold count; rewrite filter_app, length_app; lia. Qed.

Lemma count_repeat_other c d n : c <> d -> count c (repeat d n) = 0.
Proof.
  intros Hcd; unfold count; induction n as [|n IH]; simpl; [reflexivity|].
  destruct (Ascii.eqb_spec c d); [contradiction | exact IH].
Qed.

Lemma contains_true c s : contains c s = true <-> In c s.
Proof.
  unfold contains; rewrite existsb_exists; split.
  - intros (x & Hin & Hx); apply Ascii.eqb_eq in Hx; now subst.
  - intros Hin; exists c; split; [assumption | apply Ascii.eqb_refl].
Qed.

Lemma getitem_head {A} (a : A) l : getitem (a :: l) 0 = ok a.
Proof.
  unfold getitem; simpl Z.ltb; cbv iota.
  replace (Z.of_nat (List.length (a :: l)) <=? 0) with false
    by (symmetry; apply Z.leb_gt; simpl List.length; lia).
  reflexivity.
Qed.

Lemma getitem_last {A} (z : A) l : getitem (l ++ [z]) (-1) = ok z.
Proof.
  unfold getitem.
  rewrite length_app; simpl List.length.
  change (-1 <? 0) with true; cbv iota.
  destruct (-1 + Z.of_nat (List.length l + 1) <? 0) eqn:H1;
    [apply Z.ltb_lt in H1; lia|].
  destruct (Z.of_nat (List.length l + 1) <=? -1 + Z.of_nat (List.length l + 1)) eqn:H2;
    [apply Z.leb_le in H2; lia|].
  simpl orb; cbv iota.
  replace (Z.to_nat (-1 + Z.of_nat (List.length l + 1))) with (List.length l) by lia.
  rewrite nth_error_app2, Nat.sub_diag by lia.
  reflexivity.
Qed.

Lemma getitem_nil {A} i : getitem (@nil A) i = raise IndexError.
Proof.
  unfold getitem; simpl List.length.
  destruct (_ || _); [reflexivity|].
  now destruct (Z.to_nat _).
Qed.

Lemma startswith_char c a s :
  startswith [c] (a :: s) = Ascii.eqb c a.
Proof. simpl; now rewrite andb_true_r. Qed.

Lemma endswith_char c z s :
  endswith [c] (s ++ [z]) = Ascii.eqb c z.
Proof.
  unfold endswith; rewrite rev_app_distr; simpl.
  now rewrite andb_true_r.
Qed.

Lemma mul_char x n : mul [x] n = repeat x (Z.to_nat n).
Proof.
  unfold mul; induction (Z.to_nat n) as [|k IH]; simpl; [reflexivity|].
  now rewrite IH.
Qed.

Lemma len_mul_char x n : 0 <= n -> len (mul [x] n) = n.
Proof. intros Hn; unfold len; rewrite mul_char, repeat_length; lia. Qed.

Lemma nonempty_ends {A} (s : list A) :
  s <> [] -> exists a m m' z, s = a :: m /\ s = m' ++ [z].
Proof.
  intros Hs; destruct s as [|a m]; [contradiction|].
  destruct (exists_last (l := a :: m)) as (m' & z & E); [discriminate|].
  now exists a, m, m', z.
Qed.

End StringFacts.

(** ** Alignment inference *)

Section AlignmentFacts.

Lemma mm_init_align_ends a z m m' :
  a :: m = m' ++ [z] -> isspace a = false -> isspace z = false ->
  MultiMarkdown.init_align (a :: m) =
  ok (if count ":" (a :: m) =? 2 then Some ALIGN_CENTER
      else if Ascii.eqb a ":" then Some ALIGN_LEFT
      else if Ascii.eqb z ":" then Some ALIGN_RIGHT
      else None).
Proof.
  intros E Ha Hz; unfold MultiMarkdown.init_align.
  rewrite (strip_ends a z m m' E Ha Hz).
  destruct (count ":" (a :: m) =? 2); [reflexivity|].
  rewrite getitem_head; simpl bind.
  destruct (Ascii.eqb a ":"); [reflexivity|].
  rewrite E, getitem_last; simpl bind.
  now destruct (Ascii.eqb z ":").
Qed.

Lemma mm_init_align_two_colons data :
  count ":" (strip data) = 2 ->
  MultiMarkdown.init_align data = ok (Some ALIGN_CENTER).
Proof.
  intros H; unfold MultiMarkdown.init_align.
  now rewrite H.
Qed.

Lemma mm_init_align_center data :
  MultiMarkdown.init_align data = ok (Some ALIGN_CENTER) ->
  count ":" (strip data) = 2.
Proof.
  unfold MultiMarkdown.init_align.
  destruct (count ":" (strip data) =? 2) eqn:H; [now apply Z.eqb_eq in H|].
  destruct (getitem (strip data) 0) as [e|c0]; simpl; [discriminate|].
  destruct (Ascii.eqb c0 ":"); [discriminate|].
  destruct (getitem (strip data) (-1)) as [e|c1]; simpl; [discriminate|].
  destruct (Ascii.eqb c1 ":"); discriminate.
Qed.

(** On a non-empty stripped text the constructor raises nothing. *)
Lemma mm_init_align_total data :
  strip data <> [] -> exists a, MultiMarkdown.init_align data = ok a.
Proof.
  intros Hs; unfold MultiMarkdown.init_align.
  destruct (nonempty_ends _ Hs) as (a & m & m' & z & E1 & E2).
  destruct (count ":" (strip data) =? 2); [eauto|].
  replace (getitem (strip data) 0) with (ok a)
    by (rewrite E1; symmetry; apply getitem_head).
  simpl bind.
  destruct (Ascii.eqb a ":"); [eauto|].
  rewrite E2, getitem_last; simpl bind.
  destruct (Ascii.eqb z ":"); eauto.
Qed.

Lemma mm_init_align_empty data :
  strip data = [] -> MultiMarkdown.init_align data = raise IndexError.
Proof.
  intros Hs; unfold MultiMarkdown.init_align; rewrite Hs.
  reflexivity.
Qed.

Lemma pandoc_parse_alignment_ends a z m m' :
  a :: m = m' ++ [z] -> isspace a = false -> isspace z = false ->
  Pandoc._parse_alignment (a :: m) =
  colon_alignment (Ascii.eqb ":" a) (Ascii.eqb ":" z).
Proof.
  intros E Ha Hz; unfold Pandoc._parse_alignment.
  rewrite (strip_ends a z m m' E Ha Hz).
  change (lit ":") with [":"%char].
  rewrite startswith_char, E, endswith_char.
  now destruct (Ascii.eqb ":" a), (Ascii.eqb ":" z).
Qed.

(** The two ways of reading a separator cell of [S n] border characters. *)
Lemma separator_text_ends lead c n trail :
  exists a z m m',
    separator_text lead c n trail = a :: m /\ a :: m = m' ++ [z]
    /\ a = (if lead then ":"%char else c)
    /\ z = (if trail then ":"%char else c)
    /\ count ":" (a :: m) =
       (if lead then 1 else 0) + count ":" (repeat c (S n))
       + (if trail then 1 else 0).
Proof.
  unfold separator_text.
  exists (if lead then ":"%char else c), (if trail then ":"%char else c).
  destruct lead, trail.
  - exists (repeat c (S n) ++ [":"%char]), (":"%char :: repeat c (S n)).
    repeat split; rewrite ?app_nil_r; try reflexivity.
    change (":"%char :: repeat c (S n) ++ [":"%char])
      with ([":"%char] ++ repeat c (S n) ++ [":"%char]).
    rewrite !count_app; change (count ":" [":"%char]) with 1; lia.
  - exists (repeat c (S n)), (":"%char :: repeat c n).
    repeat split; rewrite ?app_nil_r; try reflexivity.
    + simpl app. now rewrite <- repeat_cons.
    + change (":"%char :: repeat c (S n)) with ([":"%char] ++ repeat c (S n)).
      rewrite count_app; change (count ":" [":"%char]) with 1; lia.
  - exists (repeat c n ++ [":"%char]), (repeat c (S n)).
    repeat split; try reflexivity.
    change (c :: repeat c n ++ [":"%char]) with (repeat c (S n) ++ [":"%char]).
    rewrite count_app; change (count ":" [":"%char]) with 1; lia.
  - exists (repeat c n), (repeat c n).
    repeat split; rewrite ?app_nil_r; try reflexivity.
    + simpl. now rewrite <- repeat_cons.
    + simpl app. change (c :: repeat c n) with (repeat c (S n)). lia.
Qed.

Lemma mm_init_align_separator_text lead n trail :
  MultiMarkdown.init_align (separator_text lead "-" n trail)
  = ok (colon_alignment lead trail).
Proof.
  destruct (separator_text_ends lead "-" n trail)
    as (a & z & m & m' & E1 & E2 & Ha & Hz & Hc).
  rewrite E1, (mm_init_align_ends a z m m' E2); [| now subst a; destruct lead
                                                  | now subst z; destruct trail].
  rewrite Hc, count_repeat_other by discriminate.
  subst a z; now destruct lead, trail.
Qed.

Lemma pandoc_parse_alignment_separator_text lead c n trail :
  c <> ":"%char -> isspace c = false ->
  Pandoc._parse_alignment (separator_text lead c n trail)
  = colon_alignment lead trail.
Proof.
  intros Hc Hs.
  destruct (separator_text_ends lead c n trail)
    as (a & z & m & m' & E1 & E2 & Ha & Hz & _).
  rewrite E1, (pandoc_parse_alignment_ends a z m m' E2);
    [| now subst a; destruct lead | now subst z; destruct trail].
  assert (Ascii.eqb ":" c = false) by (apply Ascii.eqb_neq; congruence).
  subst a z; destruct lead, trail; rewrite ?H, ?Ascii.eqb_refl; reflexivity.
Qed.

End AlignmentFacts.

(** C1. A separator cell of one or more border characters is read as Center
    with a colon at both ends, Left with a leading colon only, Right with a
    trailing colon only and no alignment without colon, in Multi-Markdown
    (border [-]) and in Pandoc (borders [-] and [=]).  In Multi-Markdown
    Center is returned exactly when the stripped cell holds two colons, so
    the cell [::] is Center. *)
Theorem C1_alignment_inference :
  forall (n : nat) (lead trail : bool),
    MultiMarkdown.init_align (separator_text lead "-" n trail)
      = ok (colon_alignment lead trail)
    /\ Pandoc._parse_alignment (separator_text lead "-" n trail)
      = colon_alignment lead trail
    /\ Pandoc._parse_alignment (separator_text lead "=" n trail)
      = colon_alignment lead trail
    /\ (forall data,
          MultiMarkdown.init_align data = ok (Some ALIGN_CENTER)
          <-> count ":" (strip data) = 2)
    /\ MultiMarkdown.init_align (lit "::") = ok (Some ALIGN_CENTER).
Proof.
  intros n lead trail.
  split; [apply mm_init_align_separator_text|].
  split; [now apply pandoc_parse_alignment_separator_text|].
  split; [now apply pandoc_parse_alignment_separator_text|].
  split; [|reflexivity].
  intros data; split;
    [apply mm_init_align_center | apply mm_init_align_two_colons].
Qed.

Lemma C1_alignment_inference_witness :
  separator_text true "-" 2 true = lit ":---:"
  /\ MultiMarkdown.init_align (lit ":---:") = ok (Some ALIGN_CENTER)
  /\ count ":" (strip (lit "::")) = 2
  /\ MultiMarkdown.init_align (lit "::") = ok (Some ALIGN_CENTER).
Proof.
  split; [reflexivity|].
  split; [exact (proj1 (C1_alignment_inference 2 true true))|].
  split; [reflexivity|].
  apply (proj2 (proj1 (proj2 (proj2 (proj2
           (C1_alignment_inference 2 true true)))) (lit "::"))).
  reflexivity.
Defined.




(** ** Regular expressions: derivatives decide the language *)

Section RegexFacts.
Import Regex.

Lemma nullable_lang r : nullable r = true <-> lang r [].
Proof.
  split.
  - induction r; simpl; intros Hn; try discriminate.
    + constructor.
    + apply andb_true_iff in Hn as [H1 H2].
      change (@nil ascii) with (@nil ascii ++ []); constructor; auto.
    + apply orb_true_iff in Hn as [H1|H2];
        [apply lang_alt_l | apply lang_alt_r]; auto.
    + constructor.
  - intros H; remember (@nil ascii) as w eqn:Ew.
    induction H; simpl; try reflexivity; try discriminate.
    + apply app_eq_nil in Ew as [-> ->]; now rewrite IHlang1, IHlang2.
    + now rewrite IHlang.
    + rewrite IHlang by assumption; apply orb_true_r.
Qed.

Lemma deriv_sound a r : forall s, lang (deriv a r) s -> lang r (a :: s).
Proof.
  induction r; simpl; intros s H.
  - inversion H.
  - inversion H.
  - destruct (p a) eqn:Hp; inversion H; subst; now constructor.
  - destruct (nullable r1) eqn:Hn.
    + inversion H; subst.
      * match goal with K : lang (Cat _ _) _ |- _ => inversion K; subst end.
        change (a :: s1 ++ s2) with ((a :: s1) ++ s2); constructor; auto.
      * change (a :: s) with ([] ++ a :: s); constructor; auto.
        now apply nullable_lang.
    + inversion H; subst.
      change (a :: s1 ++ s2) with ((a :: s1) ++ s2); constructor; auto.
  - inversion H; subst; [apply lang_alt_l | apply lang_alt_r]; auto.
  - inversion H; subst.
    change (a :: s1 ++ s2) with ((a :: s1) ++ s2); constructor; auto.
Qed.

Lemma deriv_complete a r w :
  lang r w -> forall u, w = a :: u -> lang (deriv a r) u.
Proof.
  induction 1; intros u E; simpl; try discriminate.
  - injection E as -> <-; rewrite H; constructor.
  - destruct s1 as [|b s1]; simpl in E.
    + assert (Hn : nullable r1 = true) by now apply nullable_lang.
      rewrite Hn; apply lang_alt_r; auto.
    + injection E as -> <-.
      destruct (nullable r1);
        [apply lang_alt_l|]; constructor; auto.
  - apply lang_alt_l; auto.
  - apply lang_alt_r; auto.
  - destruct s1 as [|b s1]; simpl in E.
    + now apply IHlang2.
    + injection E as -> <-; constructor; auto.
Qed.

Lemma fullmatch_lang s : forall r, fullmatch r s = true <-> lang r s.
Proof.
  induction s as [|a s IH]; intros r; simpl.
  - apply nullable_lang.
  - rewrite IH; split; [apply deriv_sound|].
    intros H; now apply (deriv_complete a r (a :: s)).
Qed.

Lemma lang_within P r s :
  classes_within P r -> lang r s -> Forall (fun a => P a = true) s.
Proof.
  intros HP H; induction H; simpl in HP.
  - constructor.
  - constructor; auto.
  - destruct HP; apply Forall_app; auto.
  - destruct HP; auto.
  - destruct HP; auto.
  - constructor.
  - apply Forall_app; auto.
Qed.

Lemma lang_star_snoc r s t :
  lang (Star r) s -> lang r t -> lang (Star r) (s ++ t).
Proof.
  intros H Ht; remember (Star r) as q eqn:Eq.
  induction H; try discriminate; injection Eq as ->.
  - simpl; rewrite <- (app_nil_r t); repeat constructor; assumption.
  - rewrite <- app_assoc; constructor; auto.
Qed.

Ltac split_cats :=
  repeat match goal with
         | K : lang (Cat _ _) _ |- _ => inversion K; subst; clear K
         end.

(** A word of a separator pattern holds its border character. *)
Lemma separator_cell_border c s : lang (separator_cell c) s -> In c s.
Proof.
  unfold separator_cell, Plus, Chr; intros H; split_cats.
  match goal with
  | K : lang (Class (Ascii.eqb c)) _ |- _ => inversion K; subst
  end.
  match goal with
  | K : Ascii.eqb c _ = true |- _ => apply Ascii.eqb_eq in K; subst
  end.
  rewrite !in_app_iff; simpl; tauto.
Qed.

(** A trailing newline is absorbed by the final [\s*]. *)
Lemma separator_cell_newline c s :
  lang (separator_cell c) s -> lang (separator_cell c) (s ++ ["010"%char]).
Proof.
  unfold separator_cell; intros H; split_cats.
  rewrite <- !app_assoc.
  do 4 (apply lang_cat; [assumption|]).
  apply lang_star_snoc; [assumption | now constructor].
Qed.

Lemma re_match_separator_cell c s :
  re_match (separator_cell c) s = true <-> lang (separator_cell c) s.
Proof.
  unfold re_match; rewrite orb_true_iff, fullmatch_lang; split.
  - intros [H|H]; [assumption|].
    destruct (rev s) as [|b t] eqn:E; [discriminate|].
    destruct (Ascii.eqb_spec b "010"); [subst b | ].
    + apply fullmatch_lang, (separator_cell_newline c) in H.
      replace s with (rev (rev s)) by apply rev_involutive.
      now rewrite E.
    + exfalso; revert H; clear - n.
      destruct b as [[] [] [] [] [] [] [] []]; try discriminate; congruence.
  - now left.
Qed.

Lemma separator_cell_chars c s :
  lang (separator_cell c) s ->
  Forall (fun a => separator_char c a = true) s.
Proof.
  apply lang_within; unfold separator_char; simpl.
  repeat split; try exact I; intros a Ha; rewrite Ha;
    rewrite ?orb_true_r; reflexivity.
Qed.

(** No cell matches both the [-] pattern and the [=] pattern. *)
Lemma single_double_disjoint s :
  re_match Pandoc.single_pattern s = true ->
  re_match Pandoc.double_pattern s = true -> False.
Proof.
  unfold Pandoc.single_pattern, Pandoc.double_pattern.
  rewrite !re_match_separator_cell; intros H1 H2.
  apply separator_cell_border in H2.
  apply separator_cell_chars in H1.
  rewrite Forall_forall in H1; specialize (H1 _ H2).
  discriminate.
Qed.

(** A cell that matches a separator pattern does not strip to nothing. *)
Lemma separator_cell_strip c s :
  isspace c = false -> re_match (separator_cell c) s = true -> strip s <> [].
Proof.
  intros Hc H; apply re_match_separator_cell, separator_cell_border in H.
  apply (In_strip c s Hc) in H.
  intros E; now rewrite E in H.
Qed.

End RegexFacts.

(** ** The Multi-Markdown constructor is partial *)

(** C10. [MultiMarkdownAlignColumn.__init__] reads the first and the last
    character of the stripped text: on a text that strips to the empty
    string it raises [IndexError]; on a text that matches [PATTERN] the
    stripped text is not empty and the constructor returns a column, and so
    it does on the literal [-] of [new_empty_column]. *)
Theorem C10_constructor_partial :
  forall (base0 : Column) (data : str),
    (strip data = [] -> MultiMarkdown.init base0 data = raise IndexError)
    /\ (Regex.re_match MultiMarkdown.PATTERN data = true ->
        strip data <> []
        /\ exists a, MultiMarkdown.init base0 data
                     = ok (MultiMarkdown.mkMMAlign base0 a))
    /\ strip (lit "-") <> []
    /\ MultiMarkdown.new_empty_column base0
       = ok (MultiMarkdown.mkMMAlign base0 None).
Proof.
  intros base0 data; unfold MultiMarkdown.init.
  split; [intros H; now rewrite mm_init_align_empty|].
  split; [|split; [discriminate | reflexivity]].
  intros H; apply separator_cell_strip in H; [|reflexivity].
  split; [assumption|].
  destruct (mm_init_align_total data H) as (a & ->).
  now exists a.
Qed.

Lemma C10_constructor_partial_witness :
  MultiMarkdown.init (mkColumn 1 0 [] []) (lit "  ") = raise IndexError
  /\ strip (lit " :-: ") <> []
  /\ exists a, MultiMarkdown.init (mkColumn 1 0 [] []) (lit " :-: ")
               = ok (MultiMarkdown.mkMMAlign (mkColumn 1 0 [] []) a).
Proof.
  split.
  - apply (proj1 (C10_constructor_partial (mkColumn 1 0 [] []) (lit "  "))).
    reflexivity.
  - apply (proj1 (proj2
             (C10_constructor_partial (mkColumn 1 0 [] []) (lit " :-: ")))).
    reflexivity.
Defined.

(** ** Row classification in the Pandoc parser *)

Section CreateRowFacts.
Import Pandoc.

Lemma has_alignment_markers_spec str_cols :
  _has_alignment_markers str_cols = true
  <-> Exists (fun col => In ":"%char col) str_cols.
Proof.
  unfold _has_alignment_markers.
  rewrite existsb_exists, Exists_exists.
  split; intros (col & Hin & H); exists col; split; auto;
    now apply contains_true.
Qed.

Lemma is_single_nonempty str_cols :
  str_cols <> [] ->
  _is_single_row_separator_with_align str_cols
  = forallb (Regex.re_match single_pattern) str_cols.
Proof.
  intros H; unfold _is_single_row_separator_with_align.
  destruct str_cols; [contradiction | reflexivity].
Qed.

Lemma is_double_nonempty str_cols :
  str_cols <> [] ->
  _is_double_row_separator_with_align str_cols
  = forallb (Regex.re_match double_pattern) str_cols.
Proof.
  intros H; unfold _is_double_row_separator_with_align.
  destruct str_cols; [contradiction | reflexivity].
Qed.

Lemma forallb_Forall {A} (f : A -> bool) l :
  forallb f l = true <-> Forall (fun x => f x = true) l.
Proof. now rewrite forallb_forall, Forall_forall. Qed.

Lemma forallb_false_Exists {A} (f : A -> bool) l :
  Exists (fun x => f x = false) l -> forallb f l = false.
Proof.
  induction 1 as [x l Hx | x l _ IH]; simpl.
  - now rewrite Hx.
  - rewrite IH; apply andb_false_r.
Qed.

Lemma create_row_single str_cols :
  str_cols <> [] ->
  Forall (fun col => Regex.re_match single_pattern col = true) str_cols ->
  create_row str_cols =
  if _has_alignment_markers str_cols
  then PandocAlignRow (lit "-") else SeparatorRow (lit "-").
Proof.
  intros Hne H; unfold create_row.
  rewrite (is_single_nonempty _ Hne).
  apply forallb_Forall in H; now rewrite H.
Qed.

Lemma create_row_double str_cols :
  str_cols <> [] ->
  Forall (fun col => Regex.re_match double_pattern col = true) str_cols ->
  create_row str_cols =
  if _has_alignment_markers str_cols
  then PandocAlignRow (lit "=") else SeparatorRow (lit "=").
Proof.
  intros Hne H; unfold create_row.
  rewrite (is_single_nonempty _ Hne), (is_double_nonempty _ Hne).
  replace (forallb (Regex.re_match single_pattern) str_cols) with false.
  - apply forallb_Forall in H; now rewrite H.
  - symmetry; apply forallb_false_Exists.
    destruct str_cols as [|col rest]; [contradiction|].
    apply Exists_cons_hd.
    destruct (Regex.re_match single_pattern col) eqn:E; [|reflexivity].
    exfalso; apply (single_double_disjoint col E).
    now inversion H.
Qed.

Lemma create_row_data str_cols :
  Exists (fun col => Regex.re_match single_pattern col = false) str_cols ->
  Exists (fun col => Regex.re_match double_pattern col = false) str_cols ->
  create_row str_cols = DataRow.
Proof.
  intros H1 H2; unfold create_row.
  assert (Hne : str_cols <> []) by (intros ->; inversion H1).
  rewrite (is_single_nonempty _ Hne), (is_double_nonempty _ Hne).
  now rewrite !forallb_false_Exists.
Qed.

Lemma create_row_dashes n :
  create_row (repeat (lit "---") (S n)) = SeparatorRow (lit "-").
Proof.
  rewrite create_row_single.
  - replace (_has_alignment_markers (repeat (lit "---") (S n))) with false;
      [reflexivity|].
    unfold _has_alignment_markers.
    induction (S n) as [|k IH]; simpl; [reflexivity | exact IH].
  - discriminate.
  - apply Forall_forall; intros col Hin.
    apply repeat_spec in Hin; subst; reflexivity.
Qed.

End CreateRowFacts.

(** C2. A Pandoc row with at least one cell, all of whose cells match the
    [-] pattern, becomes a [PandocAlignRow] with [-] when some cell holds a
    colon and a plain [SeparatorRow] with [-] when none does; likewise with
    the [=] pattern and [=]; a row with a cell outside the [-] pattern and a
    cell outside the [=] pattern is a data row.  A row of [---] cells is a
    plain [SeparatorRow]. *)
Theorem C2_create_row_nonempty :
  forall str_cols : list str,
    str_cols <> [] ->
    (Forall (fun col => Regex.re_match Pandoc.single_pattern col = true) str_cols ->
     (Exists (fun col => In ":"%char col) str_cols
      /\ Pandoc.create_row str_cols = PandocAlignRow (lit "-"))
     \/ (~ Exists (fun col => In ":"%char col) str_cols
         /\ Pandoc.create_row str_cols = SeparatorRow (lit "-")))
    /\ (Forall (fun col => Regex.re_match Pandoc.double_pattern col = true) str_cols ->
        (Exists (fun col => In ":"%char col) str_cols
         /\ Pandoc.create_row str_cols = PandocAlignRow (lit "="))
        \/ (~ Exists (fun col => In ":"%char col) str_cols
            /\ Pandoc.create_row str_cols = SeparatorRow (lit "=")))
    /\ (Exists (fun col => Regex.re_match Pandoc.single_pattern col = false) str_cols ->
        Exists (fun col => Regex.re_match Pandoc.double_pattern col = false) str_cols ->
        Pandoc.create_row str_cols = DataRow)
    /\ (forall n, Pandoc.create_row (repeat (lit "---") (S n))
                  = SeparatorRow (lit "-")).
Proof.
  intros str_cols Hne.
  pose proof (has_alignment_markers_spec str_cols) as Hm.
  split; [|split; [|split]].
  - intros H; rewrite (create_row_single _ Hne H).
    destruct (Pandoc._has_alignment_markers str_cols).
    + left; split; [now apply Hm | reflexivity].
    + right; split; [|reflexivity].
      intros HE; apply Hm in HE; discriminate.
  - intros H; rewrite (create_row_double _ Hne H).
    destruct (Pandoc._has_alignment_markers str_cols).
    + left; split; [now apply Hm | reflexivity].
    + right; split; [|reflexivity].
      intros HE; apply Hm in HE; discriminate.
  - apply create_row_data.
  - apply create_row_dashes.
Qed.

Lemma C2_create_row_nonempty_witness :
  Pandoc.create_row [lit ":--"; lit " ---"] = PandocAlignRow (lit "-")
  /\ Pandoc.create_row [lit "==="; lit "==:"] = PandocAlignRow (lit "=")
  /\ Pandoc.create_row [lit "---"; lit "abc"] = DataRow.
Proof.
  assert (N1 : [lit ":--"; lit " ---"] <> []) by discriminate.
  assert (N2 : [lit "==="; lit "==:"] <> []) by discriminate.
  assert (N3 : [lit "---"; lit "abc"] <> []) by discriminate.
  split; [|split].
  - destruct (proj1 (C2_create_row_nonempty _ N1)) as [[_ H]|[H _]].
    + repeat constructor.
    + exact H.
    + exfalso; apply H; constructor; simpl; tauto.
  - destruct (proj1 (proj2 (C2_create_row_nonempty _ N2))) as [[_ H]|[H _]].
    + repeat constructor.
    + exact H.
    + exfalso; apply H; apply Exists_cons_tl; constructor; simpl; tauto.
  - apply (proj1 (proj2 (proj2 (C2_create_row_nonempty _ N3)))).
    + apply Exists_cons_tl; constructor; reflexivity.
    + constructor; reflexivity.
Defined.

(** ** Column span and minimal width in Multi-Markdown *)

Section WidthFacts.
Import PyFloat.

Lemma ceiling_bounds a b :
  0 < b -> b * (- ((- a) / b) - 1) < a <= b * - ((- a) / b).
Proof.
  intros Hb.
  pose proof (Z.div_mod (- a) b ltac:(lia)) as E.
  pose proof (Z.mod_pos_bound (- a) b Hb) as Hm.
  nia.
Qed.

(** From span 5 on the quotient lies in the binade of 1. *)
Lemma binade_span c : 5 <= c -> binade (c + 4) c = 0.
Proof.
  intros Hc; unfold binade.
  assert (H0 : Z.log2 c <= Z.log2 (c + 4)) by (apply Z.log2_le_mono; lia).
  assert (H1 : Z.log2 (c + 4) <= Z.log2 c + 1).
  { replace (Z.log2 c + 1) with (Z.log2 (2 * c))
      by (rewrite Z.log2_double; lia).
    apply Z.log2_le_mono; lia. }
  assert (E : Z.log2 (c + 4) - Z.log2 c = 0 \/ Z.log2 (c + 4) - Z.log2 c = 1)
    by lia.
  destruct E as [->| ->].
  - change (0 <=? 0) with true; change (2 ^ 0) with 1; cbv iota.
    destruct (Z.leb_spec (c * 1) (c + 4)); [reflexivity | lia].
  - change (0 <=? 1) with true; change (2 ^ 1) with 2; cbv iota.
    destruct (Z.leb_spec (c * 2) (c + 4)); [lia | reflexivity].
Qed.

(** Below span [2^55] the significand of the quotient is above that of 1:
    the quotient is not rounded down to 1. *)
Lemma round_span c :
  5 <= c < 2 ^ 55 ->
  2 ^ 52 < round_half_even ((c + 4) * 2 ^ 52) c <= 2 ^ 53.
Proof.
  change (2 ^ 55) with 36028797018963968.
  change (2 ^ 52) with 4503599627370496.
  change (2 ^ 53) with 9007199254740992.
  intros Hc; unfold round_half_even.
  pose proof (Z.div_mod ((c + 4) * 4503599627370496) c ltac:(lia)) as E.
  pose proof (Z.mod_pos_bound ((c + 4) * 4503599627370496) c ltac:(lia)) as Hr.
  set (q := (c + 4) * 4503599627370496 / c) in *.
  set (r := (c + 4) * 4503599627370496 mod c) in *.
  assert (Hq1 : 4503599627370496 <= q) by nia.
  assert (Hq2 : q < 9007199254740992) by nia.
  destruct (Z.ltb_spec (2 * r) c);
    [|destruct (Z.ltb_spec c (2 * r)); [|destruct (Z.even q)]].
  all: try lia.
  all: nia.
Qed.

(** From span [2^55] on the quotient is at most half a step above 1 and
    is rounded down to it. *)
Lemma round_wide c :
  2 ^ 55 <= c -> round_half_even ((c + 4) * 2 ^ 52) c = 2 ^ 52.
Proof.
  change (2 ^ 55) with 36028797018963968.
  change (2 ^ 52) with 4503599627370496.
  intros Hc; unfold round_half_even.
  pose proof (Z.div_mod ((c + 4) * 4503599627370496) c ltac:(lia)) as E.
  pose proof (Z.mod_pos_bound ((c + 4) * 4503599627370496) c ltac:(lia)) as Hr.
  set (q := (c + 4) * 4503599627370496 / c) in *.
  set (r := (c + 4) * 4503599627370496 mod c) in *.
  assert (Hq : q = 4503599627370496) by nia.
  rewrite Hq in *.
  destruct (Z.ltb_spec (2 * r) c); [reflexivity|].
  destruct (Z.ltb_spec c (2 * r)); [lia | reflexivity].
Qed.

Lemma mm_min_len_wide (c : MultiMarkdown.MultiMarkdownAlignColumn) :
  2 ^ 55 <= colspan (MultiMarkdown.base c) -> MultiMarkdown.min_len c = ok 1.
Proof.
  intros Hc; unfold MultiMarkdown.min_len, MultiMarkdown.total_min_len.
  set (cs := colspan (MultiMarkdown.base c)) in *.
  assert (H5 : 5 <= cs) by (change (2 ^ 55) with 36028797018963968 in Hc; lia).
  replace (5 + cs - 1) with (cs + 4) by lia.
  unfold true_divide.
  destruct (Z.eqb_spec cs 0); [lia|].
  destruct (Z.eqb_spec (cs + 4) 0); [lia|].
  rewrite !Z.abs_eq by lia.
  destruct (Z.ltb_spec (cs + 4) 0); [lia|].
  destruct (Z.ltb_spec cs 0); [lia|].
  unfold true_divide_pos; rewrite binade_span by lia.
  change (Z.max 0 (-1022) - 52) with (-52).
  change (0 <=? -52) with false; cbv iota; simpl andb; cbv iota.
  change (- -52) with 52.
  rewrite round_wide by assumption.
  reflexivity.
Qed.

Lemma true_divide_span c :
  5 <= c < 2 ^ 55 ->
  exists m, true_divide (c + 4) c = ok (m # 4503599627370496)
            /\ 2 ^ 52 < m <= 2 ^ 53.
Proof.
  intros Hc; unfold true_divide.
  destruct (Z.eqb_spec c 0); [lia|].
  destruct (Z.eqb_spec (c + 4) 0); [lia|].
  rewrite !Z.abs_eq by lia.
  destruct (Z.ltb_spec (c + 4) 0); [lia|].
  destruct (Z.ltb_spec c 0); [lia|].
  unfold true_divide_pos; rewrite binade_span by lia.
  change (Z.max 0 (-1022) - 52) with (-52).
  change (0 <=? -52) with false; cbv iota; simpl andb; cbv iota.
  change (- -52) with 52.
  exists (round_half_even ((c + 4) * 2 ^ 52) c); split; [reflexivity|].
  now apply round_span.
Qed.

Lemma ceil_binade_one m :
  2 ^ 52 < m <= 2 ^ 53 -> ceil (m # 4503599627370496) = 2.
Proof.
  change (2 ^ 52) with 4503599627370496.
  change (2 ^ 53) with 9007199254740992.
  intros Hm; unfold ceil, Qceiling, Qfloor, Qopp; cbn [Qnum Qden].
  pose proof (Z.div_mod (- m) 4503599627370496 ltac:(lia)) as E.
  pose proof (Z.mod_pos_bound (- m) 4503599627370496 ltac:(lia)) as Hr.
  lia.
Qed.

(** Below span [2^55] the binary64 quotient has the ceiling of the exact
    one. *)
Lemma mm_min_len_ceiling (c : MultiMarkdown.MultiMarkdownAlignColumn) :
  1 <= colspan (MultiMarkdown.base c) < 2 ^ 55 ->
  MultiMarkdown.min_len c
  = ok (- ((- (5 + colspan (MultiMarkdown.base c) - 1))
           / colspan (MultiMarkdown.base c))).
Proof.
  intros Hc; unfold MultiMarkdown.min_len, MultiMarkdown.total_min_len.
  set (cs := colspan (MultiMarkdown.base c)) in *.
  assert (Hcase : cs = 1 \/ cs = 2 \/ cs = 3 \/ cs = 4 \/ 5 <= cs) by lia.
  destruct Hcase as [->|[->|[->|[->|H5]]]]; try reflexivity.
  replace (5 + cs - 1) with (cs + 4) by lia.
  destruct (true_divide_span cs) as (m & -> & Hm); [lia|].
  simpl bind; rewrite (ceil_binade_one m Hm).
  f_equal.
  pose proof (ceiling_bounds (cs + 4) cs ltac:(lia)) as Hb.
  nia.
Qed.

End WidthFacts.

(** C4. When the right border of a line cell has length [k >= 2], as with
    [||], [create_column] assigns [k] to the [colspan] of the column the
    inherited method built and changes nothing else.  A
    [MultiMarkdownAlignColumn] of span [c] has [total_min_len] equal to
    [5 + (c - 1)]; for [1 <= c < 2^55] [min_len] is the ceiling [m] of
    [(5 + c - 1) / c], that is the integer with
    [c * (m - 1) < 5 + c - 1 <= c * m], and for [c = 2] it is [3].  From
    [c = 2^55] on the binary64 quotient is rounded down to 1 and [min_len]
    is 1. *)
Theorem C4_colspan_and_min_len :
  (forall (C : Type) (HC : ColumnLike C)
          (base_create_column : LineCell.t -> result C)
          (line_cell : LineCell.t) (column : C) (k : Z),
      base_create_column line_cell = ok column ->
      len (LineCell.right_border_text line_cell) = k ->
      2 <= k ->
      exists column',
        MultiMarkdown.create_column base_create_column line_cell = ok column'
        /\ column' = with_column_base (set_colspan k (column_base column)) column
        /\ colspan (column_base column') = k)
  /\ len (lit "||") = 2
  /\ (forall c : MultiMarkdown.MultiMarkdownAlignColumn,
        MultiMarkdown.total_min_len c
        = 5 + (colspan (MultiMarkdown.base c) - 1))
  /\ (forall (c : MultiMarkdown.MultiMarkdownAlignColumn) (cs : Z),
        colspan (MultiMarkdown.base c) = cs ->
        1 <= cs < 2 ^ 55 ->
        exists m, MultiMarkdown.min_len c = ok m
                  /\ cs * (m - 1) < 5 + cs - 1 <= cs * m
                  /\ (cs = 2 -> m = 3))
  /\ (forall c : MultiMarkdown.MultiMarkdownAlignColumn,
        2 ^ 55 <= colspan (MultiMarkdown.base c) ->
        MultiMarkdown.min_len c = ok 1).
Proof.
  split; [|split; [reflexivity|split; [|split; [|apply mm_min_len_wide]]]].
  - intros C HC bcc lc column k Hb Hk Hk2.
    unfold MultiMarkdown.create_column; rewrite Hb; simpl bind.
    rewrite Hk.
    destruct (Z.ltb_spec 1 k); [|lia].
    eexists; split; [reflexivity|]; split; [reflexivity|].
    now rewrite column_base_with.
  - intros c; unfold MultiMarkdown.total_min_len; lia.
  - intros c cs Ecs Hcs.
    rewrite mm_min_len_ceiling by (rewrite Ecs; exact Hcs); rewrite Ecs.
    eexists; split; [reflexivity|]; split.
    + apply ceiling_bounds; lia.
    + intros ->; reflexivity.
Qed.

Lemma C4_colspan_and_min_len_witness :
  let base0 := mkColumn 1 0 (lit "|") (lit "|") in
  let line_cell := LineCell.mk (lit ":--:") (lit "|") (lit "||") in
  exists column',
    MultiMarkdown.create_column
      (fun lc => MultiMarkdown.init base0 (LineCell.text lc)) line_cell
    = ok column'
    /\ colspan (MultiMarkdown.base column') = 2
    /\ MultiMarkdown.total_min_len column' = 6
    /\ MultiMarkdown.min_len column' = ok 3.
Proof.
  intros base0 line_cell.
  destruct (proj1 C4_colspan_and_min_len _ _
              (fun lc => MultiMarkdown.init base0 (LineCell.text lc))
              line_cell
              (MultiMarkdown.mkMMAlign base0 (Some ALIGN_CENTER)) 2
              eq_refl eq_refl ltac:(lia))
    as (column' & Hc & Heq & Hspan).
  exists column'; split; [exact Hc|]; split; [exact Hspan|].
  assert (Hr : 1 <= 2 < 2 ^ 55) by (split; [lia | reflexivity]).
  destruct (proj1 (proj2 (proj2 (proj2 C4_colspan_and_min_len)))
              column' 2 Hspan Hr)
    as (m & Hm & _ & H3).
  split.
  - rewrite (proj1 (proj2 (proj2 C4_colspan_and_min_len)) column').
    change (MultiMarkdown.base column') with (column_base column').
    rewrite Hspan; reflexivity.
  - rewrite Hm, (H3 eq_refl); reflexivity.
Defined.

Lemma C4_counterexample :
  let c := MultiMarkdown.mkMMAlign
             (mkColumn 36028797018963968 0 (lit "|") (lit "|")) None in
  colspan (MultiMarkdown.base c) = 2 ^ 55
  /\ MultiMarkdown.min_len c = ok 1
  /\ ~ (5 + colspan (MultiMarkdown.base c) - 1
        <= colspan (MultiMarkdown.base c) * 1).
Proof.
  split; [reflexivity|]; split; [vm_compute; reflexivity|].
  cbn [colspan MultiMarkdown.base]; lia.
Qed.

(** ** Rendering a Pandoc alignment column *)

Section RenderFacts.
Import Pandoc.

Lemma base_char_cases c :
  (contains "=" (separator c) = true /\ base_char c = ["="%char])
  \/ (contains "=" (separator c) = false /\ base_char c = ["-"%char]).
Proof.
  unfold base_char; destruct (contains "=" (separator c)); [left | right];
    split; reflexivity.
Qed.

Lemma len_app s t : len (s ++ t) = len s + len t.
Proof. unfold len; rewrite length_app; lia. Qed.

Lemma len_mul_base_char c n : 0 <= n -> len (mul (base_char c) n) = n.
Proof.
  intros Hn; destruct (base_char_cases c) as [[_ ->]|[_ ->]];
    now apply len_mul_char.
Qed.

Lemma no_colon_mul_base_char c n :
  contains ":" (mul (base_char c) n) = false.
Proof.
  destruct (base_char_cases c) as [[_ ->]|[_ ->]]; rewrite mul_char;
    unfold contains; induction (Z.to_nat n) as [|k IH]; simpl; auto.
Qed.

Lemma render_center c :
  _align_follow c = Some ALIGN_CENTER -> 3 <= col_len (base c) ->
  render_log c = ([col_len (base c) - 2],
                  lit ":" ++ mul (base_char c) (col_len (base c) - 2) ++ lit ":").
Proof.
  intros Ha Hw; unfold render_log; rewrite Ha.
  destruct (Z.leb_spec (col_len (base c)) 2); [lia | reflexivity].
Qed.

Lemma render_left c :
  _align_follow c = Some ALIGN_LEFT -> 2 <= col_len (base c) ->
  render_log c = ([col_len (base c) - 1],
                  lit ":" ++ mul (base_char c) (col_len (base c) - 1)).
Proof.
  intros Ha Hw; unfold render_log; rewrite Ha.
  destruct (Z.leb_spec (col_len (base c)) 1); [lia | reflexivity].
Qed.

Lemma render_right c :
  _align_follow c = Some ALIGN_RIGHT -> 2 <= col_len (base c) ->
  render_log c = ([col_len (base c) - 1],
                  mul (base_char c) (col_len (base c) - 1) ++ lit ":").
Proof.
  intros Ha Hw; unfold render_log; rewrite Ha.
  destruct (Z.leb_spec (col_len (base c)) 1); [lia | reflexivity].
Qed.

(** Below the width that leaves room for the colons, and without
    alignment, the border character alone is repeated. *)
Lemma render_plain c :
  _align_follow c = None
  \/ (_align_follow c = Some ALIGN_CENTER /\ col_len (base c) <= 2)
  \/ ((_align_follow c = Some ALIGN_LEFT \/ _align_follow c = Some ALIGN_RIGHT)
      /\ col_len (base c) <= 1) ->
  render_log c = ([col_len (base c)], mul (base_char c) (col_len (base c))).
Proof.
  unfold render_log; intros [Ha|[[Ha Hw]|[[Ha|Ha] Hw]]]; rewrite Ha;
    try reflexivity.
  - destruct (Z.leb_spec (col_len (base c)) 2); [reflexivity | lia].
  - destruct (Z.leb_spec (col_len (base c)) 1); [reflexivity | lia].
  - destruct (Z.leb_spec (col_len (base c)) 1); [reflexivity | lia].
Qed.

(** The shape of every rendering, by alignment and width. *)
Lemma render_log_cases c :
  render_log c = ([col_len (base c)], mul (base_char c) (col_len (base c)))
  \/ (3 <= col_len (base c) /\
      render_log c = ([col_len (base c) - 2],
                      lit ":" ++ mul (base_char c) (col_len (base c) - 2) ++ lit ":"))
  \/ (2 <= col_len (base c) /\
      (render_log c = ([col_len (base c) - 1],
                       lit ":" ++ mul (base_char c) (col_len (base c) - 1))
       \/ render_log c = ([col_len (base c) - 1],
                          mul (base_char c) (col_len (base c) - 1) ++ lit ":"))).
Proof.
  destruct (_align_follow c) as [[| |]|] eqn:Ha.
  - destruct (Z.le_gt_cases (col_len (base c)) 1).
    + left; apply render_plain; tauto.
    + right; right; split; [lia|]; left; apply render_left; [assumption|lia].
  - destruct (Z.le_gt_cases (col_len (base c)) 1).
    + left; apply render_plain; tauto.
    + right; right; split; [lia|]; right; apply render_right; [assumption|lia].
  - destruct (Z.le_gt_cases (col_len (base c)) 2).
    + left; apply render_plain; tauto.
    + right; left; split; [lia|]; apply render_center; [assumption|lia].
  - left; apply render_plain; tauto.
Qed.

Lemma len_render c :
  0 <= col_len (base c) -> len (render c) = col_len (base c).
Proof.
  intros Hw; unfold render.
  destruct (render_log_cases c) as [E|[[H E]|[H [E|E]]]]; rewrite E; cbn [snd];
    rewrite ?len_app, ?len_mul_base_char by lia;
    change (len (lit ":")) with 1; lia.
Qed.

Lemma repetitions_nonneg c :
  0 <= col_len (base c) -> Forall (fun n => 0 <= n) (repetitions c).
Proof.
  intros Hw; unfold repetitions.
  destruct (render_log_cases c) as [E|[[H E]|[H [E|E]]]]; rewrite E; cbn [fst];
    repeat constructor; lia.
Qed.

End RenderFacts.

(** C8. The base character of a rendering is [=] when the stored separator
    holds one and [-] otherwise.  At a width with room for the colons
    ([w >= 3] for Center, [w >= 2] for Left and Right) the rendering is the
    leading character, the fill and the trailing character without outer
    padding, the fill being the base character [w - 2] times for Center and
    [w - 1] times for Left and Right; without alignment it is the base
    character [w] times.  For every [w >= 0] the rendering has length
    [w]. *)
Theorem C8_render_with_room :
  forall c : Pandoc.PandocAlignColumn,
    let w := col_len (Pandoc.base c) in
    let b := Pandoc.base_char c in
    ((contains "=" (Pandoc.separator c) = true /\ b = lit "=")
     \/ (contains "=" (Pandoc.separator c) = false /\ b = lit "-"))
    /\ (Pandoc._align_follow c = Some ALIGN_CENTER -> 3 <= w ->
        Pandoc.render c = lit ":" ++ mul b (w - 2) ++ lit ":"
        /\ len (mul b (w - 2)) = w - 2)
    /\ (Pandoc._align_follow c = Some ALIGN_LEFT -> 2 <= w ->
        Pandoc.render c = lit ":" ++ mul b (w - 1)
        /\ len (mul b (w - 1)) = w - 1)
    /\ (Pandoc._align_follow c = Some ALIGN_RIGHT -> 2 <= w ->
        Pandoc.render c = mul b (w - 1) ++ lit ":"
        /\ len (mul b (w - 1)) = w - 1)
    /\ (Pandoc._align_follow c = None -> Pandoc.render c = mul b w)
    /\ (0 <= w -> len (Pandoc.render c) = w).
Proof.
  intros c w b; subst w b; unfold Pandoc.render.
  split; [apply base_char_cases|].
  split; [intros Ha Hw; rewrite render_center by assumption;
          split; [reflexivity | apply len_mul_base_char; lia]|].
  split; [intros Ha Hw; rewrite render_left by assumption;
          split; [reflexivity | apply len_mul_base_char; lia]|].
  split; [intros Ha Hw; rewrite render_right by assumption;
          split; [reflexivity | apply len_mul_base_char; lia]|].
  split; [intros Ha; rewrite render_plain by tauto; reflexivity|].
  apply len_render.
Qed.

Lemma C8_render_with_room_witness :
  let c := Pandoc.init (mkColumn 1 5 (lit "+") (lit "+")) (lit ":===:") in
  Pandoc.render c = lit ":===:" /\ len (Pandoc.render c) = 5.
Proof.
  intros c; split.
  - apply (proj1 (proj2 (C8_render_with_room c))); [reflexivity | simpl; lia].
  - apply (proj2 (proj2 (proj2 (proj2 (proj2 (C8_render_with_room c)))))).
    simpl; lia.
Defined.

Lemma C8_counterexample :
  let c := Pandoc.init (mkColumn 1 2 (lit "+") (lit "+")) (lit ":-:") in
  Pandoc._align_follow c = Some ALIGN_CENTER
  /\ col_len (Pandoc.base c) = 2
  /\ Pandoc.render c = lit "--"
  /\ Pandoc.render c
     <> lit ":" ++ mul (Pandoc.base_char c) (col_len (Pandoc.base c) - 2)
            ++ lit ":".
Proof. repeat split; discriminate. Qed.

(** C9. For every width [col_len >= 0] no repetition count evaluated by
    [render] is negative and the rendering has length [col_len]; when the
    alignment is Center and [col_len <= 2], or Left or Right and
    [col_len <= 1], the rendering is the base character [col_len] times and
    holds no colon. *)
Theorem C9_render_small_width :
  forall c : Pandoc.PandocAlignColumn,
    0 <= col_len (Pandoc.base c) ->
    Forall (fun n => 0 <= n) (Pandoc.repetitions c)
    /\ len (Pandoc.render c) = col_len (Pandoc.base c)
    /\ ((Pandoc._align_follow c = Some ALIGN_CENTER
         /\ col_len (Pandoc.base c) <= 2)
        \/ ((Pandoc._align_follow c = Some ALIGN_LEFT
             \/ Pandoc._align_follow c = Some ALIGN_RIGHT)
            /\ col_len (Pandoc.base c) <= 1) ->
        Pandoc.render c = mul (Pandoc.base_char c) (col_len (Pandoc.base c))
        /\ contains ":" (Pandoc.render c) = false).
Proof.
  intros c Hw.
  split; [now apply repetitions_nonneg|].
  split; [now apply len_render|].
  intros H; unfold Pandoc.render; rewrite render_plain by tauto.
  split; [reflexivity | apply no_colon_mul_base_char].
Qed.

Lemma C9_render_small_width_witness :
  let c := Pandoc.init (mkColumn 1 2 (lit "+") (lit "+")) (lit ":=:") in
  Forall (fun n => 0 <= n) (Pandoc.repetitions c)
  /\ Pandoc.render c = lit "=="
  /\ contains ":" (Pandoc.render c) = false.
Proof.
  intros c.
  assert (Hw : 0 <= col_len (Pandoc.base c)) by (simpl; lia).
  destruct (C9_render_small_width c Hw) as (Hr & _ & Hs).
  split; [exact Hr|].
  apply Hs; left; split; [reflexivity | simpl; lia].
Defined.

(** ** The table drivers *)

Section InsertFacts.
Context {A : Type}.
Implicit Types (l : list A) (x : A).

Lemma list_insert_at l1 l2 x :
  list_insert (l1 ++ l2) (Z.of_nat (List.length l1)) x = l1 ++ x :: l2.
Proof.
  unfold list_insert; rewrite length_app.
  destruct (Z.ltb_spec (Z.of_nat (List.length l1)) 0); [lia|].
  rewrite Z.min_l by lia.
  rewrite Nat2Z.id, firstn_app, skipn_app, Nat.sub_diag, firstn_all, skipn_all.
  simpl; now rewrite app_nil_r.
Qed.

Lemma list_insert_split l i x :
  exists l1 l2, l = l1 ++ l2 /\ list_insert l i x = l1 ++ x :: l2.
Proof.
  unfold list_insert.
  set (j := Z.to_nat _).
  exists (firstn j l), (skipn j l); split; [|reflexivity].
  symmetry; apply firstn_skipn.
Qed.

Lemma list_insert_in_range l i x :
  0 <= i <= Z.of_nat (List.length l) ->
  list_insert l i x = firstn (Z.to_nat i) l ++ x :: skipn (Z.to_nat i) l.
Proof.
  intros Hi; unfold list_insert.
  destruct (Z.ltb_spec i 0); [lia|].
  now rewrite Z.min_l by lia.
Qed.

Lemma list_insert_length l i x :
  List.length (list_insert l i x) = S (List.length l).
Proof.
  destruct (list_insert_split l i x) as (l1 & l2 & -> & ->).
  rewrite !length_app; simpl; lia.
Qed.

Lemma list_insert_In l i x y : In y l -> In y (list_insert l i x).
Proof.
  destruct (list_insert_split l i x) as (l1 & l2 & -> & ->).
  rewrite !in_app_iff; simpl; tauto.
Qed.

Lemma list_insert_In_new l i x : In x (list_insert l i x).
Proof.
  destruct (list_insert_split l i x) as (l1 & l2 & -> & ->).
  rewrite in_app_iff; simpl; tauto.
Qed.

Lemma list_insert_map {B} (f : A -> B) l i x :
  map f (list_insert l i x) = list_insert (map f l) i (f x).
Proof.
  unfold list_insert; rewrite length_map, map_app; simpl.
  now rewrite firstn_map, skipn_map.
Qed.

Lemma getitem_in_range l i :
  0 <= i < Z.of_nat (List.length l) ->
  exists x, getitem l i = ok x /\ nth_error l (Z.to_nat i) = Some x.
Proof.
  intros Hi; unfold getitem.
  destruct (Z.ltb_spec i 0); [lia|].
  destruct (Z.ltb_spec i 0); [lia|].
  destruct (Z.leb_spec (Z.of_nat (List.length l)) i); [lia|].
  simpl orb; cbv iota.
  destruct (nth_error l (Z.to_nat i)) as [x|] eqn:E; [now exists x|].
  apply nth_error_None in E; lia.
Qed.

End InsertFacts.

Section ClassFacts.

Lemma classes_length t : List.length (classes t) = List.length (rows t).
Proof. apply length_map. Qed.

Lemma classes_rows_insert t i r :
  classes (rows_insert t i r) = list_insert (classes t) i (row_class r).
Proof. apply list_insert_map. Qed.

Lemma inserted_at_intro K i old :
  (i <= List.length old)%nat ->
  inserted_at K i old (firstn i old ++ K :: skipn i old).
Proof.
  intros Hi.
  assert (Hl : List.length (firstn i old) = i) by (rewrite length_firstn; lia).
  split; [reflexivity|]; split; [|split].
  - rewrite nth_error_app2, Hl, Nat.sub_diag by lia; reflexivity.
  - rewrite length_app; simpl; rewrite Hl, length_skipn; lia.
  - rewrite skipn_app, firstn_app, Hl, Nat.sub_diag.
    rewrite (skipn_all2 (n := S i)) by lia.
    rewrite firstn_all2 by lia.
    replace (S i - i)%nat with 1%nat by lia.
    cbn [firstn skipn app]; rewrite app_nil_r.
    apply firstn_skipn.
Qed.

Lemma has_alignment_classes l :
  existsb is_PandocAlignRow l = true
  <-> exists s, In (PandocAlignRow s) (map row_class l).
Proof.
  rewrite existsb_exists; split.
  - intros (r & Hin & Hr); unfold is_PandocAlignRow in Hr.
    destruct (row_class r) as [| |  |s] eqn:E; try discriminate.
    exists s; rewrite <- E; now apply in_map.
  - intros (s & Hin); apply in_map_iff in Hin as (r & E & Hin).
    exists r; split; [assumption|].
    unfold is_PandocAlignRow; now rewrite E.
Qed.

Lemma pack_pad_classes t : classes (pack_pad t) = classes t.
Proof.
  unfold classes, pack_pad; simpl rows.
  rewrite map_map; reflexivity.
Qed.

Lemma insert_empty_row_pad_classes t i :
  classes (insert_empty_row_pad t i) = list_insert (classes t) i DataRow.
Proof.
  unfold insert_empty_row_pad.
  now rewrite pack_pad_classes, classes_rows_insert.
Qed.

End ClassFacts.

Section DriverFacts.

(** [Table.pack] recomputes columns and widths; it neither adds, drops nor
    reorders rows. *)
Variable pack : Table -> Table.
Hypothesis pack_classes : forall t, classes (pack t) = classes t.

Lemma in_bounds_index t pos :
  in_bounds t pos ->
  0 <= row_num pos + 1 <= Z.of_nat (List.length (classes t))
  /\ (Z.to_nat (row_num pos + 1) <= List.length (classes t))%nat.
Proof. unfold in_bounds; rewrite classes_length; lia. Qed.

Lemma inserted_at_list_insert K t pos :
  in_bounds t pos ->
  inserted_at K (Z.to_nat (row_num pos + 1)) (classes t)
              (list_insert (classes t) (row_num pos + 1) K).
Proof.
  intros Hb; destruct (in_bounds_index t pos Hb) as [H1 H2].
  rewrite list_insert_in_range by assumption.
  now apply inserted_at_intro.
Qed.

Lemma rows_insert_in_bounds t pos r :
  in_bounds t pos ->
  rows_insert t (row_num pos + 1) r
  = mkTable (firstn (Z.to_nat (row_num pos + 1)) (rows t)
             ++ r :: skipn (Z.to_nat (row_num pos + 1)) (rows t)).
Proof.
  intros Hb; unfold rows_insert, in_bounds in *.
  now rewrite list_insert_in_range by lia.
Qed.

Lemma mm_single_classes t pos :
  classes (fst (MultiMarkdown.editor_insert_single_hline pack t pos))
  = list_insert (classes t) (row_num pos + 1) MultiMarkdownAlignRow.
Proof.
  unfold MultiMarkdown.editor_insert_single_hline; cbn [fst].
  now rewrite pack_classes, classes_rows_insert.
Qed.

Lemma pandoc_single_classes t pos :
  classes (fst (Pandoc.editor_insert_single_hline pack t pos))
  = list_insert (classes t) (row_num pos + 1)
      (if existsb is_PandocAlignRow (rows t)
       then PandocAlignRow (lit "-") else SeparatorRow (lit "-")).
Proof.
  unfold Pandoc.editor_insert_single_hline; cbn [fst].
  rewrite pack_classes.
  destruct (existsb is_PandocAlignRow (rows t)); apply classes_rows_insert.
Qed.

Lemma pandoc_double_classes t pos :
  classes (fst (Pandoc.editor_insert_double_hline pack t pos))
  = list_insert (classes t) (row_num pos + 1)
      (if existsb is_PandocAlignRow (rows t)
       then PandocAlignRow (lit "=") else SeparatorRow (lit "=")).
Proof.
  unfold Pandoc.editor_insert_double_hline; cbn [fst].
  rewrite pack_classes.
  destruct (existsb is_PandocAlignRow (rows t)); apply classes_rows_insert.
Qed.

End DriverFacts.

(** C5. Let [pack] keep the rows of a table (it only recomputes columns).
    At an in-bounds position, [editor_insert_single_hline] of either
    dialect hands to [pack] the rows of the table with one new separator
    row at index [row_num + 1]; in the result that row stands at
    [row_num + 1], there is one row more, the rows that were there keep
    their order, and the returned position is the row and field of the
    call.  The Multi-Markdown row is a [MultiMarkdownAlignRow], the Pandoc
    one a [PandocAlignRow] or a [SeparatorRow] with [-]. *)
Theorem C5_insert_single_hline :
  forall pack : Table -> Table,
    (forall t, classes (pack t) = classes t) ->
    forall (t : Table) (pos : TablePos),
      in_bounds t pos ->
      let i := Z.to_nat (row_num pos + 1) in
      let mm := MultiMarkdown.editor_insert_single_hline pack t pos in
      let pd := Pandoc.editor_insert_single_hline pack t pos in
      let K := if existsb is_PandocAlignRow (rows t)
               then PandocAlignRow (lit "-") else SeparatorRow (lit "-") in
      fst mm = pack (mkTable (firstn i (rows t)
                              ++ new_row MultiMarkdownAlignRow
                              :: skipn i (rows t)))
      /\ inserted_at MultiMarkdownAlignRow i (classes t) (classes (fst mm))
      /\ snd mm = (lit "Single separator row inserted",
                   mkTablePos (row_num pos) (field_num pos))
      /\ fst pd = pack (mkTable (firstn i (rows t) ++ new_row K
                                 :: skipn i (rows t)))
      /\ inserted_at K i (classes t) (classes (fst pd))
      /\ class_is_separator K = true
      /\ snd pd = (lit "Single separator row inserted",
                   mkTablePos (row_num pos) (field_num pos)).
Proof.
  intros pack Hpack t pos Hb i mm pd K; subst i mm pd K.
  split; [|split; [|split; [reflexivity|split; [|split; [|split]]]]].
  - unfold MultiMarkdown.editor_insert_single_hline; cbn [fst].
    now rewrite rows_insert_in_bounds.
  - rewrite (mm_single_classes pack Hpack).
    now apply inserted_at_list_insert.
  - unfold Pandoc.editor_insert_single_hline; cbn [fst].
    destruct (existsb is_PandocAlignRow (rows t));
      now rewrite rows_insert_in_bounds.
  - rewrite (pandoc_single_classes pack Hpack).
    now apply inserted_at_list_insert.
  - now destruct (existsb is_PandocAlignRow (rows t)).
  - reflexivity.
Qed.

Lemma C5_insert_single_hline_witness :
  let cell := mkColumn 1 3 (lit "|") (lit "|") in
  let t := mkTable [mkRow DataRow [cell; cell];
                    mkRow MultiMarkdownAlignRow [cell; cell];
                    mkRow DataRow [cell]] in
  let pos := mkTablePos 1 1 in
  let r := MultiMarkdown.editor_insert_single_hline pack_pad t pos in
  nth_error (classes (fst r)) 2 = Some MultiMarkdownAlignRow
  /\ List.length (classes (fst r)) = 4%nat
  /\ snd r = (lit "Single separator row inserted", mkTablePos 1 1).
Proof.
  intros cell t pos r.
  assert (Hb : in_bounds t pos) by (unfold in_bounds; simpl; lia).
  destruct (C5_insert_single_hline pack_pad pack_pad_classes t pos Hb)
    as (_ & (_ & Hn & Hl & _) & Hp & _).
  split; [exact Hn|]; split; [exact Hl | exact Hp].
Defined.

Section MoveFacts.

Variable pack : Table -> Table.
Variable insert_empty_row : Table -> Z -> Table.
Hypothesis pack_classes : forall t, classes (pack t) = classes t.
(** [Table.insert_empty_row(i)] puts an empty data row at index [i]. *)
Hypothesis insert_empty_row_classes :
  forall t i, classes (insert_empty_row t i) = list_insert (classes t) i DataRow.

Let message := lit "Single separator row inserted".

(** The table after the first two statements of
    [editor_insert_hline_and_move]. *)
Let with_hline (t : Table) (pos : TablePos) : Table :=
  pack (rows_insert t (row_num pos + 1) (new_row MultiMarkdownAlignRow)).

Lemma with_hline_classes t pos :
  in_bounds t pos ->
  classes (with_hline t pos)
  = firstn (Z.to_nat (row_num pos + 1)) (classes t)
    ++ MultiMarkdownAlignRow :: skipn (Z.to_nat (row_num pos + 1)) (classes t).
Proof.
  intros Hb; unfold with_hline.
  rewrite pack_classes, classes_rows_insert.
  apply list_insert_in_range.
  now apply in_bounds_index.
Qed.

Lemma with_hline_length t pos :
  List.length (rows (with_hline t pos)) = S (List.length (rows t)).
Proof.
  unfold with_hline.
  rewrite <- classes_length, pack_classes, classes_rows_insert.
  now rewrite list_insert_length, classes_length.
Qed.

(** Inserting just behind the new separator. *)
Lemma insert_behind (l1 l2 : list RowClass) K i :
  Z.to_nat i = S (List.length l1) -> 
  list_insert (l1 ++ K :: l2) i DataRow = l1 ++ K :: DataRow :: l2.
Proof.
  intros Hi.
  replace i with (Z.of_nat (List.length (l1 ++ [K])))
    by (rewrite length_app; simpl; lia).
  change (l1 ++ K :: l2) with (l1 ++ [K] ++ l2).
  rewrite app_assoc, list_insert_at, <- app_assoc.
  reflexivity.
Qed.

Lemma hline_and_move_last t pos :
  in_bounds t pos ->
  row_num pos + 1 = Z.of_nat (List.length (rows t)) ->
  exists t',
    MultiMarkdown.editor_insert_hline_and_move pack insert_empty_row t pos
    = ok (t', (message, mkTablePos (row_num pos + 2) 0))
    /\ classes t' = classes t ++ [MultiMarkdownAlignRow; DataRow].
Proof.
  intros Hb Hlast.
  unfold MultiMarkdown.editor_insert_hline_and_move.
  fold (with_hline t pos).
  rewrite with_hline_length.
  destruct (Z.ltb_spec (row_num pos + 2) (Z.of_nat (S (List.length (rows t)))));
    [lia|].
  simpl bind; eexists; split; [reflexivity|].
  rewrite insert_empty_row_classes, with_hline_classes by assumption.
  assert (E : Z.to_nat (row_num pos + 1) = List.length (classes t))
    by (rewrite classes_length; lia).
  rewrite E, firstn_all, skipn_all.
  rewrite insert_behind by lia.
  reflexivity.
Qed.

Lemma hline_and_move_inner t pos k :
  in_bounds t pos ->
  nth_error (classes t) (Z.to_nat (row_num pos + 1)) = Some k ->
  exists t',
    MultiMarkdown.editor_insert_hline_and_move pack insert_empty_row t pos
    = ok (t', (message, mkTablePos (row_num pos + 2) 0))
    /\ classes t'
       = firstn (Z.to_nat (row_num pos + 1)) (classes t)
         ++ MultiMarkdownAlignRow
         :: (if class_is_separator k then [DataRow] else [])
         ++ skipn (Z.to_nat (row_num pos + 1)) (classes t).
Proof.
  intros Hb Hk.
  assert (Hlt : (Z.to_nat (row_num pos + 1) < List.length (classes t))%nat)
    by (apply nth_error_Some; congruence).
  rewrite classes_length in Hlt.
  pose proof Hb as [Hb0 Hb1].
  unfold MultiMarkdown.editor_insert_hline_and_move.
  fold (with_hline t pos).
  rewrite with_hline_length.
  destruct (Z.ltb_spec (row_num pos + 2) (Z.of_nat (S (List.length (rows t)))));
    [|lia].
  destruct (getitem_in_range (rows (with_hline t pos)) (row_num pos + 2))
    as (r & -> & Hr); [rewrite with_hline_length; lia|].
  simpl bind.
  assert (Hrk : row_class r = k).
  { apply (map_nth_error row_class) in Hr.
    fold (classes (with_hline t pos)) in Hr.
    rewrite with_hline_classes in Hr by assumption.
    rewrite nth_error_app2 in Hr by (rewrite length_firstn; lia).
    rewrite length_firstn, classes_length in Hr.
    replace (Z.to_nat (row_num pos + 2)
             - Nat.min (Z.to_nat (row_num pos + 1)) (List.length (rows t)))%nat
      with 1%nat in Hr by lia.
    cbn [nth_error] in Hr.
    rewrite <- (firstn_skipn (Z.to_nat (row_num pos + 1)) (classes t)) in Hk.
    rewrite nth_error_app2 in Hk by (rewrite length_firstn; lia).
    rewrite length_firstn, classes_length in Hk.
    replace (Z.to_nat (row_num pos + 1)
             - Nat.min (Z.to_nat (row_num pos + 1)) (List.length (rows t)))%nat
      with 0%nat in Hk by lia.
    destruct (skipn (Z.to_nat (row_num pos + 1)) (classes t));
      cbn [nth_error] in Hr, Hk; congruence. }
  unfold is_separator; rewrite Hrk.
  destruct (class_is_separator k); simpl bind; eexists; (split; [reflexivity|]).
  - rewrite insert_empty_row_classes, with_hline_classes by assumption.
    rewrite insert_behind;
      [reflexivity | rewrite length_firstn, classes_length; lia].
  - now apply with_hline_classes.
Qed.

End MoveFacts.

(** C6. Let [pack] keep the rows of a table and [insert_empty_row] put an
    empty data row at the index it is given.  At an in-bounds position
    [editor_insert_hline_and_move] raises nothing, returns the position
    [(row_num + 2, 0)] and leaves a [MultiMarkdownAlignRow] at
    [row_num + 1].  Called on the last row it appends the separator and
    then an empty data row; when the row that followed the cursor is a
    separator, an empty data row stands at [row_num + 2] between the new
    separator and that one; otherwise the separator is the only new row. *)
Theorem C6_insert_hline_and_move :
  forall (pack : Table -> Table) (insert_empty_row : Table -> Z -> Table),
    (forall t, classes (pack t) = classes t) ->
    (forall t i,
        classes (insert_empty_row t i) = list_insert (classes t) i DataRow) ->
    forall (t : Table) (pos : TablePos),
      in_bounds t pos ->
      let i := Z.to_nat (row_num pos + 1) in
      exists t',
        MultiMarkdown.editor_insert_hline_and_move pack insert_empty_row t pos
        = ok (t', (lit "Single separator row inserted",
                   mkTablePos (row_num pos + 2) 0))
        /\ nth_error (classes t') i = Some MultiMarkdownAlignRow
        /\ (row_num pos + 1 = Z.of_nat (List.length (rows t)) ->
            classes t' = classes t ++ [MultiMarkdownAlignRow; DataRow])
        /\ (forall k,
              nth_error (classes t) i = Some k ->
              class_is_separator k = true ->
              classes t' = firstn i (classes t)
                           ++ MultiMarkdownAlignRow :: DataRow
                           :: skipn i (classes t)
              /\ nth_error (classes t') (S (S i)) = Some k)
        /\ (forall k,
              nth_error (classes t) i = Some k ->
              class_is_separator k = false ->
              classes t' = firstn i (classes t)
                           ++ MultiMarkdownAlignRow :: skipn i (classes t)).
Proof.
  intros pack ier Hpack Hier t pos Hb i.
  assert (Hi : (i <= List.length (classes t))%nat)
    by now apply in_bounds_index.
  assert (Hl : List.length (firstn i (classes t)) = i)
    by (rewrite length_firstn; lia).
  destruct (nth_error (classes t) i) as [k|] eqn:Hk.
  - destruct (hline_and_move_inner pack ier Hpack Hier t pos k Hb Hk)
      as (t' & Hrun & Hcl).
    exists t'; split; [exact Hrun|].
    assert (Hlt : (i < List.length (classes t))%nat)
      by (apply nth_error_Some; fold i; congruence).
    fold i in Hcl.
    split; [|split; [|split]].
    + rewrite Hcl, nth_error_app2, Hl, Nat.sub_diag by lia; reflexivity.
    + rewrite <- classes_length; unfold in_bounds in Hb; lia.
    + intros k' E Hs; injection E as <-; rewrite Hs in Hcl.
      split; [exact Hcl|].
      rewrite Hcl, nth_error_app2, Hl by lia.
      replace (S (S i) - i)%nat with 2%nat by lia; cbn [nth_error app].
      rewrite <- Hk.
      rewrite <- (firstn_skipn i (classes t)) at 2.
      rewrite nth_error_app2, Hl, Nat.sub_diag by lia.
      now destruct (skipn i (classes t)).
    + intros k' E Hs; injection E as <-; rewrite Hs in Hcl.
      exact Hcl.
  - assert (Hlast : row_num pos + 1 = Z.of_nat (List.length (rows t))).
    { apply nth_error_None in Hk; rewrite classes_length in *.
      unfold in_bounds in Hb; lia. }
    destruct (hline_and_move_last pack ier Hpack Hier t pos Hb Hlast)
      as (t' & Hrun & Hcl).
    exists t'; split; [exact Hrun|].
    split; [|split; [|split]]; try discriminate.
    + rewrite Hcl, nth_error_app2 by (rewrite classes_length; lia).
      replace (i - List.length (classes t))%nat with 0%nat
        by (rewrite classes_length; lia).
      reflexivity.
    + intros _; exact Hcl.
Qed.

Lemma C6_insert_hline_and_move_witness :
  let cell := mkColumn 1 3 (lit "|") (lit "|") in
  let t := mkTable [mkRow DataRow [cell; cell];
                    mkRow MultiMarkdownAlignRow [cell; cell];
                    mkRow DataRow [cell]] in
  let pos := mkTablePos 2 1 in
  exists t',
    MultiMarkdown.editor_insert_hline_and_move
      pack_pad insert_empty_row_pad t pos
    = ok (t', (lit "Single separator row inserted", mkTablePos 4 0))
    /\ classes t' = [DataRow; MultiMarkdownAlignRow; DataRow;
                     MultiMarkdownAlignRow; DataRow].
Proof.
  intros cell t pos.
  assert (Hb : in_bounds t pos) by (unfold in_bounds; simpl; lia).
  destruct (C6_insert_hline_and_move pack_pad insert_empty_row_pad
              pack_pad_classes insert_empty_row_pad_classes t pos Hb)
    as (t' & Hrun & _ & Hlast & _).
  exists t'; split; [exact Hrun|].
  apply Hlast; reflexivity.
Defined.

(** C7. Let [pack] keep the rows of a table.  Both Pandoc insertions look
    for a [PandocAlignRow] among all rows of the table: when there is one
    the row they insert is a [PandocAlignRow] (with [-] for the single
    line, [=] for the double one), whose empty columns carry no alignment;
    when there is none it is a plain [SeparatorRow].  Every
    [PandocAlignRow] of the table is still there afterwards, so a table
    with an alignment-bearing row keeps one. *)
Theorem C7_pandoc_hline_keeps_alignment :
  forall pack : Table -> Table,
    (forall t, classes (pack t) = classes t) ->
    forall (t : Table) (pos : TablePos),
      let has_alignment := existsb is_PandocAlignRow (rows t) in
      let single := fst (Pandoc.editor_insert_single_hline pack t pos) in
      let double := fst (Pandoc.editor_insert_double_hline pack t pos) in
      (has_alignment = true <-> exists s, In (PandocAlignRow s) (classes t))
      /\ (has_alignment = true ->
          classes single
          = list_insert (classes t) (row_num pos + 1) (PandocAlignRow (lit "-"))
          /\ classes double
             = list_insert (classes t) (row_num pos + 1) (PandocAlignRow (lit "="))
          /\ existsb is_PandocAlignRow (rows single) = true
          /\ existsb is_PandocAlignRow (rows double) = true)
      /\ (has_alignment = false ->
          classes single
          = list_insert (classes t) (row_num pos + 1) (SeparatorRow (lit "-"))
          /\ classes double
             = list_insert (classes t) (row_num pos + 1) (SeparatorRow (lit "=")))
      /\ (forall s, In (PandocAlignRow s) (classes t) ->
                    In (PandocAlignRow s) (classes single)
                    /\ In (PandocAlignRow s) (classes double))
      /\ (forall base0,
            Pandoc.align_follow (Pandoc.new_empty_column base0 (lit "-")) = None
            /\ Pandoc.align_follow (Pandoc.new_empty_column base0 (lit "=")) = None).
Proof.
  intros pack Hpack t pos has_alignment single double.
  assert (Hs : classes single
               = list_insert (classes t) (row_num pos + 1)
                   (if has_alignment
                    then PandocAlignRow (lit "-") else SeparatorRow (lit "-")))
    by now apply pandoc_single_classes.
  assert (Hd : classes double
               = list_insert (classes t) (row_num pos + 1)
                   (if has_alignment
                    then PandocAlignRow (lit "=") else SeparatorRow (lit "=")))
    by now apply pandoc_double_classes.
  split; [apply has_alignment_classes|].
  split; [|split; [|split]].
  - intros E; rewrite E in Hs, Hd.
    split; [exact Hs|]; split; [exact Hd|].
    split; apply has_alignment_classes.
    + exists (lit "-"); fold (classes single); rewrite Hs.
      apply list_insert_In_new.
    + exists (lit "="); fold (classes double); rewrite Hd.
      apply list_insert_In_new.
  - intros E; rewrite E in Hs, Hd; now split.
  - intros s Hin; rewrite Hs, Hd; split; now apply list_insert_In.
  - intros base0; split; reflexivity.
Qed.

Lemma C7_pandoc_hline_keeps_alignment_witness :
  let cell := mkColumn 1 3 (lit "+") (lit "+") in
  let t := mkTable [mkRow (SeparatorRow (lit "-")) [cell];
                    mkRow DataRow [cell];
                    mkRow (PandocAlignRow (lit "=")) [cell];
                    mkRow DataRow [cell]] in
  let pos := mkTablePos 3 0 in
  classes (fst (Pandoc.editor_insert_single_hline pack_pad t pos))
  = [SeparatorRow (lit "-"); DataRow; PandocAlignRow (lit "="); DataRow;
     PandocAlignRow (lit "-")]
  /\ classes (fst (Pandoc.editor_insert_double_hline pack_pad t pos))
     = [SeparatorRow (lit "-"); DataRow; PandocAlignRow (lit "="); DataRow;
        PandocAlignRow (lit "=")].
Proof.
  intros cell t pos.
  destruct (C7_pandoc_hline_keeps_alignment pack_pad pack_pad_classes t pos)
    as (_ & H & _).
  destruct (H eq_refl) as (Hs & Hd & _).
  split; [exact Hs | exact Hd].
Defined.

(** * Further properties *)

(** ** The separator grammar, read through [strip] *)

Section GrammarFacts.
Import Regex.

Local Abbreviation spaces := (Forall (fun a => isspace a = true)).

Lemma lstrip_spaces ws x : spaces ws -> lstrip (ws ++ x) = lstrip x.
Proof.
  induction 1 as [|a ws Ha _ IH]; simpl; [reflexivity|].
  now rewrite Ha.
Qed.

Lemma rstrip_spaces ws x : spaces ws -> rstrip (x ++ ws) = rstrip x.
Proof.
  intros H; unfold rstrip.
  rewrite rev_app_distr, lstrip_spaces; [reflexivity|].
  now apply Forall_rev.
Qed.

Lemma strip_pad ws1 ws2 a z m m' :
  a :: m = m' ++ [z] -> isspace a = false -> isspace z = false ->
  spaces ws1 -> spaces ws2 ->
  strip (ws1 ++ (a :: m) ++ ws2) = a :: m.
Proof.
  intros E Ha Hz H1 H2; unfold strip.
  rewrite lstrip_spaces by assumption.
  change ((a :: m) ++ ws2) with (a :: (m ++ ws2)).
  rewrite lstrip_nonspace by assumption.
  change (a :: (m ++ ws2)) with ((a :: m) ++ ws2).
  rewrite rstrip_spaces by assumption.
  rewrite E; now apply rstrip_nonspace.
Qed.

Lemma lstrip_split s : exists ws, s = ws ++ lstrip s /\ spaces ws.
Proof.
  induction s as [|a s (ws & E & H)]; simpl.
  - now exists [].
  - destruct (isspace a) eqn:Ha.
    + exists (a :: ws); split; [simpl; congruence | now constructor].
    + now exists [].
Qed.

Lemma rstrip_split s : exists ws, s = rstrip s ++ ws /\ spaces ws.
Proof.
  destruct (lstrip_split (rev s)) as (ws & E & H).
  exists (rev ws); split; [|now apply Forall_rev].
  unfold rstrip; rewrite <- rev_app_distr, <- E.
  now rewrite rev_involutive.
Qed.

(** What [strip] removes is white space at the two ends. *)
Lemma strip_split s :
  exists ws1 ws2, s = ws1 ++ strip s ++ ws2 /\ spaces ws1 /\ spaces ws2.
Proof.
  destruct (lstrip_split s) as (ws1 & E1 & H1).
  destruct (rstrip_split (lstrip s)) as (ws2 & E2 & H2).
  exists ws1, ws2; unfold strip; now rewrite <- E2.
Qed.

Lemma lang_cat_inv r1 r2 s :
  lang (Cat r1 r2) s -> exists s1 s2, s = s1 ++ s2 /\ lang r1 s1 /\ lang r2 s2.
Proof. intros H; inversion H; subst; eauto. Qed.

Lemma lang_star_class P w :
  lang (Star (Class P)) w <-> Forall (fun a => P a = true) w.
Proof.
  split.
  - apply lang_within; simpl; auto.
  - induction 1 as [|a w Ha _ IH]; [constructor|].
    change (a :: w) with ([a] ++ w); constructor; [now constructor | exact IH].
Qed.

Lemma lang_opt_colon l : lang (Opt (Chr ":")) l <-> l = [] \/ l = [":"%char].
Proof.
  unfold Opt, Chr; split.
  - intros H; inversion H as [| | |? ? ? K|? ? ? K| |]; subst.
    + inversion K as [|? a Ha| | | | |]; subst.
      apply Ascii.eqb_eq in Ha; subst; now right.
    + inversion K; now left.
  - intros [->| ->]; [apply lang_alt_r; constructor|].
    apply lang_alt_l; constructor; apply Ascii.eqb_refl.
Qed.

Lemma lang_plus_chr c w : lang (Plus (Chr c)) w <-> exists n, w = repeat c (S n).
Proof.
  unfold Plus, Chr; split.
  - intros H; apply lang_cat_inv in H as (s1 & s2 & -> & H1 & H2).
    inversion H1 as [|? a Ha| | | | |]; subst.
    apply Ascii.eqb_eq in Ha; subst a.
    apply lang_star_class in H2.
    exists (List.length s2); simpl; f_equal.
    induction H2 as [|a w Ha _ IH]; simpl; [reflexivity|].
    apply Ascii.eqb_eq in Ha; subst a; f_equal; exact IH.
  - intros (n & ->).
    change (repeat c (S n)) with ([c] ++ repeat c n).
    constructor; [constructor; apply Ascii.eqb_refl|].
    apply lang_star_class, Forall_forall; intros a Ha.
    apply repeat_spec in Ha; subst; apply Ascii.eqb_refl.
Qed.

Lemma opt_colon_text l :
  (l = [] \/ l = [":"%char]) <->
  exists b : bool, l = if b then [":"%char] else [].
Proof.
  split.
  - intros [->| ->]; [now exists false | now exists true].
  - intros ([] & ->); auto.
Qed.

(** The words of a separator pattern: white space, a separator text, white
    space. *)
Lemma lang_separator_cell_shape c s :
  lang (separator_cell c) s <->
  exists ws1 ws2 lead n trail,
    s = ws1 ++ separator_text lead c n trail ++ ws2
    /\ spaces ws1 /\ spaces ws2.
Proof.
  unfold separator_cell, separator_text; split.
  - intros H.
    apply lang_cat_inv in H as (ws1 & s1 & -> & Hw1 & H).
    apply lang_cat_inv in H as (l & s2 & -> & Hl & H).
    apply lang_cat_inv in H as (d & s3 & -> & Hd & H).
    apply lang_cat_inv in H as (t & ws2 & -> & Ht & Hw2).
    apply lang_star_class in Hw1, Hw2.
    apply lang_opt_colon, opt_colon_text in Hl as (lead & ->).
    apply lang_opt_colon, opt_colon_text in Ht as (trail & ->).
    apply lang_plus_chr in Hd as (n & ->).
    exists ws1, ws2, lead, n, trail.
    split; [|now split].
    now rewrite <- !app_assoc.
  - intros (ws1 & ws2 & lead & n & trail & -> & H1 & H2).
    rewrite <- !app_assoc.
    constructor; [now apply lang_star_class|].
    constructor; [apply lang_opt_colon, opt_colon_text; now exists lead|].
    constructor; [apply lang_plus_chr; now exists n|].
    constructor; [apply lang_opt_colon, opt_colon_text; now exists trail|].
    now apply lang_star_class.
Qed.

Lemma strip_separator_text_pad ws1 ws2 lead c n trail :
  isspace c = false -> spaces ws1 -> spaces ws2 ->
  strip (ws1 ++ separator_text lead c n trail ++ ws2)
  = separator_text lead c n trail.
Proof.
  intros Hc H1 H2.
  destruct (separator_text_ends lead c n trail)
    as (a & z & m & m' & E1 & E2 & Ha & Hz & _).
  rewrite E1; apply (strip_pad ws1 ws2 a z m m' E2); try assumption.
  - subst a; now destruct lead.
  - subst z; now destruct trail.
Qed.

Lemma strip_separator_text lead c n trail :
  isspace c = false ->
  strip (separator_text lead c n trail) = separator_text lead c n trail.
Proof.
  intros Hc.
  pose proof (strip_separator_text_pad [] [] lead c n trail Hc
                (Forall_nil _) (Forall_nil _)) as H.
  now rewrite app_nil_r in H.
Qed.

Lemma re_match_separator_cell_strip c s :
  isspace c = false ->
  re_match (separator_cell c) s = true
  <-> exists lead n trail, strip s = separator_text lead c n trail.
Proof.
  intros Hc; rewrite re_match_separator_cell, lang_separator_cell_shape; split.
  - intros (ws1 & ws2 & lead & n & trail & -> & H1 & H2).
    exists lead, n, trail; now apply strip_separator_text_pad.
  - intros (lead & n & trail & E).
    destruct (strip_split s) as (ws1 & ws2 & Es & H1 & H2).
    exists ws1, ws2, lead, n, trail; now rewrite <- E.
Qed.

Lemma In_colon_strip s : In ":"%char s <-> In ":"%char (strip s).
Proof.
  split; [now apply In_strip | apply strip_incl].
Qed.

Lemma In_colon_separator_text lead c n trail :
  c <> ":"%char ->
  In ":"%char (separator_text lead c n trail) <-> lead = true \/ trail = true.
Proof.
  intros Hc; unfold separator_text; rewrite !in_app_iff; split.
  - intros [H|[H|H]].
    + destruct lead; [now left | destruct H].
    + apply repeat_spec in H; congruence.
    + destruct trail; [now right | destruct H].
  - intros [->| ->]; simpl; tauto.
Qed.

Lemma mm_init_align_of_strip d d' :
  strip d = strip d' -> MultiMarkdown.init_align d = MultiMarkdown.init_align d'.
Proof. intros E; unfold MultiMarkdown.init_align; now rewrite E. Qed.

Lemma pandoc_parse_alignment_of_strip d d' :
  strip d = strip d' -> Pandoc._parse_alignment d = Pandoc._parse_alignment d'.
Proof. intros E; unfold Pandoc._parse_alignment; now rewrite E. Qed.

Lemma pandoc_alignment_accepted c s lead n trail :
  isspace c = false -> c <> ":"%char ->
  strip s = separator_text lead c n trail ->
  Pandoc._parse_alignment s = colon_alignment lead trail.
Proof.
  intros Hs Hc E.
  rewrite <- (pandoc_parse_alignment_separator_text lead c n trail Hc Hs).
  apply pandoc_parse_alignment_of_strip.
  now rewrite strip_separator_text.
Qed.

Lemma mm_alignment_accepted s lead n trail :
  strip s = separator_text lead "-" n trail ->
  MultiMarkdown.init_align s = ok (colon_alignment lead trail).
Proof.
  intros E.
  rewrite <- (mm_init_align_separator_text lead n trail).
  apply mm_init_align_of_strip.
  now rewrite strip_separator_text.
Qed.

End GrammarFacts.

(** X1. A cell matches a separator pattern exactly when its stripped text
    is an optional colon, one or more border characters and an optional
    colon: [-] for [MultiMarkdownAlignColumn.PATTERN] and the single-border
    pattern of Pandoc, [=] for the double-border one. *)
Theorem X1_separator_patterns_by_strip :
  forall s : str,
    (Regex.re_match MultiMarkdown.PATTERN s = true
     <-> exists lead n trail, strip s = separator_text lead "-" n trail)
    /\ (Regex.re_match Pandoc.single_pattern s = true
        <-> exists lead n trail, strip s = separator_text lead "-" n trail)
    /\ (Regex.re_match Pandoc.double_pattern s = true
        <-> exists lead n trail, strip s = separator_text lead "=" n trail).
Proof.
  intros s; repeat split;
    try (apply re_match_separator_cell_strip; reflexivity);
    intros H; apply re_match_separator_cell_strip; auto.
Qed.

Lemma X1_separator_patterns_by_strip_witness :
  Regex.re_match MultiMarkdown.PATTERN (lit "  :-- ") = true
  /\ exists lead n trail,
       strip (lit " ==: ") = separator_text lead "=" n trail.
Proof.
  split.
  - apply (proj2 (proj1 (X1_separator_patterns_by_strip (lit "  :-- ")))).
    exists true, 1%nat, false; reflexivity.
  - apply (proj1 (proj2 (proj2 (X1_separator_patterns_by_strip (lit " ==: "))))).
    reflexivity.
Defined.

(** X2. On every cell that [PATTERN] accepts the Multi-Markdown constructor
    raises nothing, and its colon count gives the alignment the colons at
    the two ends announce, the same one the Pandoc prefix and suffix test
    computes. *)
Theorem X2_accepted_cell_alignment :
  forall data : str,
    Regex.re_match MultiMarkdown.PATTERN data = true ->
    (exists lead n trail,
        strip data = separator_text lead "-" n trail
        /\ MultiMarkdown.init_align data = ok (colon_alignment lead trail))
    /\ MultiMarkdown.init_align data = ok (Pandoc._parse_alignment data).
Proof.
  intros data H.
  apply re_match_separator_cell_strip in H as (lead & n & trail & E);
    [|reflexivity].
  pose proof (mm_alignment_accepted data lead n trail E) as Hm.
  split; [now exists lead, n, trail|].
  rewrite Hm; f_equal; symmetry.
  now apply (pandoc_alignment_accepted "-" data lead n trail).
Qed.

Lemma X2_accepted_cell_alignment_witness :
  MultiMarkdown.init_align (lit " ---: ")
  = ok (Pandoc._parse_alignment (lit " ---: ")).
Proof.
  apply (proj2 (X2_accepted_cell_alignment (lit " ---: ") eq_refl)).
Defined.

Section MarkerFacts.
Import Pandoc.

Lemma colon_marks_alignment c col :
  isspace c = false -> c <> ":"%char ->
  Regex.re_match (Regex.separator_cell c) col = true ->
  contains ":" col = expresses_alignment (_parse_alignment col).
Proof.
  intros Hs Hc H.
  apply re_match_separator_cell_strip in H as (lead & n & trail & E);
    [|assumption].
  rewrite (pandoc_alignment_accepted c col lead n trail Hs Hc E).
  pose proof (contains_true ":" col) as Hi.
  rewrite In_colon_strip, E, (In_colon_separator_text lead c n trail Hc) in Hi.
  destruct (contains ":" col).
  - destruct (proj1 Hi eq_refl) as [-> | ->]; [now destruct trail|].
    now destruct lead.
  - destruct lead;
      [assert (false = true) by (apply Hi; now left); discriminate|].
    destruct trail;
      [assert (false = true) by (apply Hi; now right); discriminate|].
    reflexivity.
Qed.

Lemma markers_are_alignments c str_cols :
  isspace c = false -> c <> ":"%char ->
  Forall (fun col => Regex.re_match (Regex.separator_cell c) col = true) str_cols ->
  _has_alignment_markers str_cols
  = existsb (fun col => expresses_alignment (_parse_alignment col)) str_cols.
Proof.
  intros Hs Hc H; unfold _has_alignment_markers.
  induction H as [|col rest Hcol _ IH]; simpl; [reflexivity|].
  now rewrite IH, (colon_marks_alignment c col Hs Hc Hcol).
Qed.

Lemma forallb_false_inv {A} (f : A -> bool) l :
  forallb f l = false -> Exists (fun x => f x = false) l.
Proof.
  induction l as [|x l IH]; simpl; [discriminate|].
  destruct (f x) eqn:Hx; [|now left].
  intros H; right; now apply IH.
Qed.

(** The four ways [create_row] can go. *)
Lemma create_row_cases str_cols :
  (str_cols = [] /\ create_row str_cols = DataRow)
  \/ (str_cols <> []
      /\ Forall (fun col => Regex.re_match single_pattern col = true) str_cols
      /\ create_row str_cols
         = if _has_alignment_markers str_cols
           then PandocAlignRow (lit "-") else SeparatorRow (lit "-"))
  \/ (str_cols <> []
      /\ Forall (fun col => Regex.re_match double_pattern col = true) str_cols
      /\ create_row str_cols
         = if _has_alignment_markers str_cols
           then PandocAlignRow (lit "=") else SeparatorRow (lit "="))
  \/ (Exists (fun col => Regex.re_match single_pattern col = false) str_cols
      /\ Exists (fun col => Regex.re_match double_pattern col = false) str_cols
      /\ create_row str_cols = DataRow).
Proof.
  destruct str_cols as [|col rest]; [now left|].
  set (cols := col :: rest).
  assert (Hne : cols <> []) by discriminate.
  destruct (forallb (Regex.re_match single_pattern) cols) eqn:H1.
  - apply forallb_Forall in H1.
    right; left; repeat split; auto using create_row_single.
  - apply forallb_false_inv in H1.
    destruct (forallb (Regex.re_match double_pattern) cols) eqn:H2.
    + apply forallb_Forall in H2.
      right; right; left; repeat split; auto using create_row_double.
    + apply forallb_false_inv in H2.
      right; right; right; repeat split; auto using create_row_data.
Qed.

End MarkerFacts.

(** X3. In a Pandoc row whose cells all match one separator pattern, a
    cell holds a colon exactly when [_parse_alignment] reads an alignment
    from it; so [_has_alignment_markers] answers whether some column of the
    row will carry an alignment. *)
Theorem X3_markers_are_alignments :
  forall str_cols : list str,
    Forall (fun col => Regex.re_match Pandoc.single_pattern col = true) str_cols
    \/ Forall (fun col => Regex.re_match Pandoc.double_pattern col = true) str_cols ->
    Pandoc._has_alignment_markers str_cols
    = existsb (fun col => expresses_alignment (Pandoc._parse_alignment col))
              str_cols.
Proof.
  intros str_cols [H|H];
    [apply (markers_are_alignments "-") | apply (markers_are_alignments "=")];
    try assumption; try reflexivity; discriminate.
Qed.

Lemma X3_markers_are_alignments_witness :
  Pandoc._has_alignment_markers [lit "---"; lit " :-- "] = true.
Proof.
  rewrite (X3_markers_are_alignments [lit "---"; lit " :-- "]).
  - reflexivity.
  - left; repeat constructor.
Defined.

(** X4. [create_row] returns a data row exactly for a row without cells
    and for a row with a cell outside the [-] pattern and a cell outside
    the [=] pattern.  When it returns a [PandocAlignRow] or a
    [SeparatorRow] the separator is [-] or [=], every cell matches the
    pattern of that character, and some cell holds a colon in the first
    case and none in the second.  It never returns a
    [MultiMarkdownAlignRow]. *)
Theorem X4_create_row_inversion :
  forall str_cols : list str,
    let all_match c :=
      Forall (fun col => Regex.re_match (Regex.separator_cell c) col = true)
             str_cols in
    (Pandoc.create_row str_cols = DataRow
     <-> str_cols = []
         \/ (Exists (fun col => Regex.re_match Pandoc.single_pattern col = false) str_cols
             /\ Exists (fun col => Regex.re_match Pandoc.double_pattern col = false) str_cols))
    /\ (forall s, Pandoc.create_row str_cols = PandocAlignRow s ->
                  str_cols <> []
                  /\ Pandoc._has_alignment_markers str_cols = true
                  /\ ((s = lit "-" /\ all_match "-"%char)
                      \/ (s = lit "=" /\ all_match "="%char)))
    /\ (forall s, Pandoc.create_row str_cols = SeparatorRow s ->
                  str_cols <> []
                  /\ Pandoc._has_alignment_markers str_cols = false
                  /\ ((s = lit "-" /\ all_match "-"%char)
                      \/ (s = lit "=" /\ all_match "="%char)))
    /\ Pandoc.create_row str_cols <> MultiMarkdownAlignRow.
Proof.
  intros str_cols all_match; subst all_match.
  assert (Hno : forall c,
             str_cols <> [] ->
             Forall (fun col => Regex.re_match (Regex.separator_cell c) col = true)
                    str_cols ->
             ~ Exists (fun col => Regex.re_match (Regex.separator_cell c) col = false)
                      str_cols).
  { intros c _ Hall Hex.
    apply forallb_false_Exists in Hex; apply forallb_Forall in Hall.
    congruence. }
  destruct (create_row_cases str_cols)
    as [[-> E]|[(Hne & Hall & E)|[(Hne & Hall & E)|(H1 & H2 & E)]]].
  - rewrite E; split; [split; auto|].
    repeat split; discriminate.
  - destruct (Pandoc._has_alignment_markers str_cols) eqn:Hm; rewrite E;
      (split; [split; [discriminate|];
               intros [->|[H1 _]]; [contradiction | now apply Hno in H1]|]);
      (split; [|split]); try discriminate;
      intros s Hs; try discriminate; injection Hs as <-; auto.
  - destruct (Pandoc._has_alignment_markers str_cols) eqn:Hm; rewrite E;
      (split; [split; [discriminate|];
               intros [->|[_ H2]]; [contradiction | now apply Hno in H2]|]);
      (split; [|split]); try discriminate;
      intros s Hs; try discriminate; injection Hs as <-; auto.
  - rewrite E; split; [split; auto|].
    repeat split; discriminate.
Qed.

Lemma X4_create_row_inversion_witness :
  Pandoc.create_row [lit "---"; lit "==="] = DataRow.
Proof.
  apply (proj1 (X4_create_row_inversion [lit "---"; lit "==="])).
  right; split.
  - apply Exists_cons_tl; constructor; reflexivity.
  - constructor; reflexivity.
Defined.

(** ** Rendering a Multi-Markdown alignment column *)

Section MMRenderFacts.
Import MultiMarkdown.

Lemma mm_render_unfold c ps :
  render c ps
  = lit " " ++ fst (render_ends (_align_follow c))
    ++ repeat "-"%char (Z.to_nat (mm_total_col_len c ps - 4))
    ++ snd (render_ends (_align_follow c)) ++ lit " ".
Proof.
  unfold render, mm_total_col_len.
  change (lit "-") with ["-"%char]; rewrite mul_char.
  do 3 f_equal; f_equal; lia.
Qed.

Lemma render_ends_length a :
  List.length (fst (render_ends a)) = 1%nat
  /\ List.length (snd (render_ends a)) = 1%nat.
Proof. destruct a as [[| |]|]; split; reflexivity. Qed.

Lemma mm_render_length c ps :
  len (render c ps) = Z.max 4 (mm_total_col_len c ps).
Proof.
  rewrite mm_render_unfold; unfold len.
  destruct (render_ends_length (_align_follow c)) as [H1 H2].
  rewrite !length_app, repeat_length, H1, H2; simpl List.length; lia.
Qed.

Lemma len_separator_text lead c n trail :
  len (separator_text lead c n trail)
  = (if lead then 1 else 0) + Z.of_nat (S n) + (if trail then 1 else 0).
Proof.
  unfold len, separator_text.
  rewrite !length_app, repeat_length; destruct lead, trail; simpl List.length; lia.
Qed.

Lemma repeat_shift {A} (a : A) k x : repeat a k ++ a :: x = a :: repeat a k ++ x.
Proof. induction k as [|k IH]; simpl; [reflexivity | now rewrite IH]. Qed.

Ltac list_normal :=
  unfold separator_text; cbn [lit list_ascii_of_string app repeat];
  rewrite ?app_nil_r, <- ?app_assoc; cbn [app];
  rewrite ?repeat_shift; reflexivity.

(** Away from the Center column without room for a dash, a rendering is a
    separator text between two spaces. *)
Lemma mm_render_shape c ps :
  (_align_follow c = Some ALIGN_CENTER -> 5 <= mm_total_col_len c ps) ->
  exists lead n trail,
    colon_alignment lead trail = _align_follow c
    /\ render c ps = lit " " ++ separator_text lead "-" n trail ++ lit " ".
Proof.
  intros Hc; rewrite mm_render_unfold.
  set (k := Z.to_nat (mm_total_col_len c ps - 4)).
  destruct (_align_follow c) as [[| |]|] eqn:Ha; simpl render_ends; cbn [fst snd].
  - exists true, k, false; split; [reflexivity | list_normal].
  - exists false, k, true; split; [reflexivity | list_normal].
  - assert (Hk : exists n, k = S n).
    { specialize (Hc eq_refl); exists (Nat.pred k); subst k; lia. }
    destruct Hk as (n & ->).
    exists true, n, true; split; [reflexivity | list_normal].
  - exists false, (S k), false; split; [reflexivity | list_normal].
Qed.

Lemma strip_between_spaces lead c n trail :
  isspace c = false ->
  strip (lit " " ++ separator_text lead c n trail ++ lit " ")
  = separator_text lead c n trail.
Proof.
  intros Hc; apply strip_separator_text_pad; [assumption| |];
    repeat constructor.
Qed.

Lemma mm_render_center_narrow c ps :
  _align_follow c = Some ALIGN_CENTER -> mm_total_col_len c ps <= 4 ->
  render c ps = lit " :: ".
Proof.
  intros Ha Hw; rewrite mm_render_unfold, Ha.
  replace (Z.to_nat (mm_total_col_len c ps - 4)) with 0%nat by lia.
  reflexivity.
Qed.

Lemma mm_render_parses c ps :
  init_align (render c ps) = ok (_align_follow c).
Proof.
  assert (Hcase : (_align_follow c = Some ALIGN_CENTER
                   /\ mm_total_col_len c ps <= 4)
                  \/ (_align_follow c = Some ALIGN_CENTER
                      -> 5 <= mm_total_col_len c ps)).
  { destruct (Z.le_gt_cases 5 (mm_total_col_len c ps)); [now right|].
    destruct (_align_follow c) as [[| |]|];
      try (right; discriminate).
    left; split; [reflexivity | lia]. }
  destruct Hcase as [[Ha Hw]|H].
  - rewrite mm_render_center_narrow, Ha by assumption; reflexivity.
  - destruct (mm_render_shape c ps H) as (lead & n & trail & <- & ->).
    apply (mm_alignment_accepted _ lead n trail), strip_between_spaces.
    reflexivity.
Qed.

Lemma mm_render_fixed c ps lead n trail :
  _align_follow c = colon_alignment lead trail ->
  4 <= len (lit " " ++ separator_text lead "-" n trail ++ lit " ") ->
  mm_total_col_len c ps
  = len (lit " " ++ separator_text lead "-" n trail ++ lit " ") ->
  render c ps = lit " " ++ separator_text lead "-" n trail ++ lit " ".
Proof.
  intros Ha Hlen Hw; rewrite mm_render_unfold, Hw, Ha.
  rewrite !len_app, len_separator_text in *.
  change (len (lit " ")) with 1 in *.
  destruct lead, trail; simpl colon_alignment; simpl render_ends; cbn [fst snd].
  - replace (Z.to_nat (1 + (1 + Z.of_nat (S n) + 1 + 1) - 4)) with (S n) by lia.
    list_normal.
  - replace (Z.to_nat (1 + (1 + Z.of_nat (S n) + 0 + 1) - 4)) with n by lia.
    list_normal.
  - replace (Z.to_nat (1 + (0 + Z.of_nat (S n) + 1 + 1) - 4)) with n by lia.
    list_normal.
  - destruct n as [|n]; [lia|].
    replace (Z.to_nat (1 + (0 + Z.of_nat (S (S n)) + 0 + 1) - 4)) with n by lia.
    list_normal.
Qed.

End MMRenderFacts.

(** X5. The text [MultiMarkdownAlignColumn.render] returns has length
    [max(4, w)], where [w] is the [col_len] of the column plus the
    [col_len] of its placeholder columns: exactly [w] from width 4 on, and
    four characters, more than assigned, below.  The [colspan] of the
    column does not change the text. *)
Theorem X5_mm_render_length :
  forall (c : MultiMarkdown.MultiMarkdownAlignColumn)
         (pseudo_columns : list Column),
    len (MultiMarkdown.render c pseudo_columns)
    = Z.max 4 (mm_total_col_len c pseudo_columns)
    /\ (forall k,
          MultiMarkdown.render
            (MultiMarkdown.mkMMAlign (set_colspan k (MultiMarkdown.base c))
                                     (MultiMarkdown._align_follow c))
            pseudo_columns
          = MultiMarkdown.render c pseudo_columns).
Proof.
  intros c ps; split; [apply mm_render_length|].
  intros k; rewrite !mm_render_unfold; reflexivity.
Qed.

(** X6. Reading a rendered Multi-Markdown alignment column back gives the
    alignment of the column, at every width.  From width 5 on, the
    [total_min_len] of a column without span, the rendering matches
    [PATTERN]; a Center column of width 4 or less renders as [ :: ], which
    [PATTERN] rejects. *)
Theorem X6_mm_render_roundtrip :
  forall (c : MultiMarkdown.MultiMarkdownAlignColumn)
         (pseudo_columns : list Column),
    MultiMarkdown.init_align (MultiMarkdown.render c pseudo_columns)
    = ok (MultiMarkdown._align_follow c)
    /\ (5 <= mm_total_col_len c pseudo_columns ->
        Regex.re_match MultiMarkdown.PATTERN
                       (MultiMarkdown.render c pseudo_columns) = true)
    /\ (MultiMarkdown._align_follow c = Some ALIGN_CENTER ->
        mm_total_col_len c pseudo_columns <= 4 ->
        MultiMarkdown.render c pseudo_columns = lit " :: "
        /\ Regex.re_match MultiMarkdown.PATTERN
                          (MultiMarkdown.render c pseudo_columns) = false).
Proof.
  intros c ps; split; [apply mm_render_parses|]; split.
  - intros Hw.
    destruct (mm_render_shape c ps) as (lead & n & trail & _ & ->); [auto|].
    apply re_match_separator_cell_strip; [reflexivity|].
    exists lead, n, trail; now apply strip_between_spaces.
  - intros Ha Hw; rewrite mm_render_center_narrow by assumption.
    split; reflexivity.
Qed.

Lemma X6_mm_render_roundtrip_witness :
  let c := MultiMarkdown.mkMMAlign (mkColumn 2 4 (lit "|") (lit "||"))
                                   (Some ALIGN_RIGHT) in
  let pseudo_columns := [mkColumn 1 3 (lit "|") (lit "|")] in
  MultiMarkdown.render c pseudo_columns = lit " ----: "
  /\ Regex.re_match MultiMarkdown.PATTERN
                    (MultiMarkdown.render c pseudo_columns) = true.
Proof.
  intros c ps; split; [reflexivity|].
  apply (proj1 (proj2 (X6_mm_render_roundtrip c ps))).
  unfold mm_total_col_len; simpl; lia.
Defined.

(** X7. A separator text between two single spaces, of length 4 or more,
    is a fixed point: the column the constructor builds from it, rendered
    at the width of the text, is the text again. *)
Theorem X7_mm_parse_render_fixed_point :
  forall (base0 : Column) (pseudo_columns : list Column)
         (lead trail : bool) (n : nat),
    let text := lit " " ++ separator_text lead "-" n trail ++ lit " " in
    4 <= len text ->
    col_len base0 + py_sum (map col_len pseudo_columns) = len text ->
    exists c,
      MultiMarkdown.init base0 text = ok c
      /\ MultiMarkdown._align_follow c = colon_alignment lead trail
      /\ MultiMarkdown.render c pseudo_columns = text.
Proof.
  intros base0 ps lead trail n text Hlen Hw.
  unfold MultiMarkdown.init.
  rewrite (mm_alignment_accepted text lead n trail)
    by (apply strip_between_spaces; reflexivity).
  simpl bind; eexists; split; [reflexivity|]; split; [reflexivity|].
  now apply mm_render_fixed.
Qed.

Lemma X7_mm_parse_render_fixed_point_witness :
  exists c,
    MultiMarkdown.init (mkColumn 1 7 (lit "|") (lit "|")) (lit " :---: ") = ok c
    /\ MultiMarkdown._align_follow c = Some ALIGN_CENTER
    /\ MultiMarkdown.render c [] = lit " :---: ".
Proof.
  apply (X7_mm_parse_render_fixed_point
           (mkColumn 1 7 (lit "|") (lit "|")) [] true true 2);
    [simpl; unfold len; simpl; lia | reflexivity].
Defined.

(** ** Rendering and reading back Pandoc alignment columns *)

Section PandocRenderFacts.
Import Pandoc.

Ltac list_normal :=
  unfold separator_text; cbn [lit list_ascii_of_string app repeat];
  rewrite ?app_nil_r, <- ?app_assoc; cbn [app];
  rewrite ?repeat_shift; reflexivity.

Lemma base_char_border c :
  exists b, base_char c = [b] /\ (b = "="%char \/ b = "-"%char)
            /\ contains "=" (separator c) = Ascii.eqb "=" b.
Proof.
  destruct (base_char_cases c) as [[H ->]|[H ->]];
    [exists "="%char | exists "-"%char]; rewrite H; auto.
Qed.

(** From width 3 on, the [min_len] of the column, a rendering is a
    separator text of that width. *)
Lemma pandoc_render_shape c :
  3 <= col_len (base c) ->
  exists b lead n trail,
    base_char c = [b] /\ (b = "="%char \/ b = "-"%char)
    /\ colon_alignment lead trail = _align_follow c
    /\ render c = separator_text lead b n trail.
Proof.
  intros Hw; destruct (base_char_border c) as (b & Hb & Hb' & _).
  exists b; unfold render.
  destruct (_align_follow c) as [[| |]|] eqn:Ha.
  - exists true, (Z.to_nat (col_len (base c) - 2)), false.
    rewrite render_left, Hb, mul_char by (assumption || lia); cbn [snd].
    replace (Z.to_nat (col_len (base c) - 1))
      with (S (Z.to_nat (col_len (base c) - 2))) by lia.
    repeat split; auto; list_normal.
  - exists false, (Z.to_nat (col_len (base c) - 2)), true.
    rewrite render_right, Hb, mul_char by (assumption || lia); cbn [snd].
    replace (Z.to_nat (col_len (base c) - 1))
      with (S (Z.to_nat (col_len (base c) - 2))) by lia.
    repeat split; auto; list_normal.
  - exists true, (Z.to_nat (col_len (base c) - 3)), true.
    rewrite render_center, Hb, mul_char by (assumption || lia); cbn [snd].
    replace (Z.to_nat (col_len (base c) - 2))
      with (S (Z.to_nat (col_len (base c) - 3))) by lia.
    repeat split; auto; list_normal.
  - exists false, (Z.to_nat (col_len (base c) - 1)), false.
    rewrite render_plain, Hb, mul_char by tauto; cbn [snd].
    replace (Z.to_nat (col_len (base c)))
      with (S (Z.to_nat (col_len (base c) - 1))) by lia.
    repeat split; auto; list_normal.
Qed.

Lemma border_facts b :
  b = "="%char \/ b = "-"%char -> isspace b = false /\ b <> ":"%char.
Proof. intros [->| ->]; split; (reflexivity || discriminate). Qed.

Lemma contains_eq_separator_text lead b n trail :
  b = "="%char \/ b = "-"%char ->
  contains "=" (separator_text lead b n trail) = Ascii.eqb "=" b.
Proof.
  intros Hb; unfold separator_text, contains.
  rewrite !existsb_app.
  replace (existsb (Ascii.eqb "=") (if lead then [":"%char] else []))
    with false by now destruct lead.
  replace (existsb (Ascii.eqb "=") (if trail then [":"%char] else []))
    with false by now destruct trail.
  rewrite orb_false_r; cbn [repeat existsb orb].
  destruct Hb as [->| ->]; [reflexivity|].
  simpl; induction n; simpl; auto.
Qed.

(** [render] reads three things of a column. *)
Lemma render_ext c1 c2 :
  contains "=" (separator c1) = contains "=" (separator c2) ->
  col_len (base c1) = col_len (base c2) ->
  _align_follow c1 = _align_follow c2 ->
  render c1 = render c2.
Proof.
  intros H1 H2 H3; unfold render, render_log, base_char.
  now rewrite H1, H2, H3.
Qed.

Lemma pandoc_render_reads_back c :
  3 <= col_len (base c) ->
  _parse_alignment (render c) = _align_follow c
  /\ contains "=" (render c) = contains "=" (separator c)
  /\ Regex.re_match
       (if contains "=" (separator c) then double_pattern else single_pattern)
       (render c) = true.
Proof.
  intros Hw.
  destruct (pandoc_render_shape c Hw) as (b & lead & n & trail & Hb & Hb' & Ha & ->).
  destruct (border_facts b Hb') as [Hs Hc].
  destruct (base_char_border c) as (b' & Hb2 & _ & Hcont).
  assert (b' = b) by congruence; subst b'.
  split; [|split].
  - rewrite <- Ha; now apply pandoc_parse_alignment_separator_text.
  - rewrite Hcont; now apply contains_eq_separator_text.
  - rewrite Hcont.
    assert (Hm : Regex.re_match (Regex.separator_cell b)
                                (separator_text lead b n trail) = true).
    { apply re_match_separator_cell_strip; [assumption|].
      exists lead, n, trail; now apply strip_separator_text. }
    destruct Hb' as [->| ->]; exact Hm.
Qed.

(** A separator text rendered at its own length is itself. *)
Lemma pandoc_render_fixed c lead b n trail :
  base_char c = [b] ->
  _align_follow c = colon_alignment lead trail ->
  col_len (base c) = len (separator_text lead b n trail) ->
  render c = separator_text lead b n trail.
Proof.
  intros Hb Ha Hw; rewrite len_separator_text in Hw; unfold render.
  destruct lead, trail; simpl colon_alignment in Ha.
  - rewrite render_center, Hb, mul_char, Hw by (assumption || lia); cbn [snd].
    replace (Z.to_nat (1 + Z.of_nat (S n) + 1 - 2)) with (S n) by lia.
    list_normal.
  - rewrite render_left, Hb, mul_char, Hw by (assumption || lia); cbn [snd].
    replace (Z.to_nat (1 + Z.of_nat (S n) + 0 - 1)) with (S n) by lia.
    list_normal.
  - rewrite render_right, Hb, mul_char, Hw by (assumption || lia); cbn [snd].
    replace (Z.to_nat (0 + Z.of_nat (S n) + 1 - 1)) with (S n) by lia.
    list_normal.
  - rewrite render_plain, Hb, mul_char, Hw by tauto; cbn [snd].
    replace (Z.to_nat (0 + Z.of_nat (S n) + 0)) with (S n) by lia.
    list_normal.
Qed.

Lemma base_char_of_contains c b :
  b = "="%char \/ b = "-"%char ->
  contains "=" (separator c) = Ascii.eqb "=" b -> base_char c = [b].
Proof.
  intros [->| ->] H; unfold base_char; rewrite H; reflexivity.
Qed.

End PandocRenderFacts.

(** X8. From width 3 on, the [min_len] of the column, reading a rendered
    Pandoc alignment column back gives the alignment of the column, the
    rendering matches the pattern of its border character, and a column
    built from the rendering renders, at the same width, to the same
    text. *)
Theorem X8_pandoc_render_roundtrip :
  forall c : Pandoc.PandocAlignColumn,
    Pandoc.min_len c <= col_len (Pandoc.base c) ->
    Pandoc._parse_alignment (Pandoc.render c) = Pandoc._align_follow c
    /\ Regex.re_match
         (if contains "=" (Pandoc.separator c)
          then Pandoc.double_pattern else Pandoc.single_pattern)
         (Pandoc.render c) = true
    /\ (forall base0,
          col_len base0 = col_len (Pandoc.base c) ->
          Pandoc.render (Pandoc.init base0 (Pandoc.render c))
          = Pandoc.render c).
Proof.
  intros c Hw; unfold Pandoc.min_len in Hw.
  destruct (pandoc_render_reads_back c Hw) as (Ha & Hc & Hm).
  split; [exact Ha|]; split; [exact Hm|].
  intros base0 Hb; apply render_ext; assumption.
Qed.

Lemma X8_pandoc_render_roundtrip_witness :
  let c := Pandoc.init (mkColumn 1 6 (lit "+") (lit "+")) (lit " :=: ") in
  Pandoc.render c = lit ":====:"
  /\ Pandoc._parse_alignment (Pandoc.render c) = Some ALIGN_CENTER.
Proof.
  intros c; split; [reflexivity|].
  assert (Hw : Pandoc.min_len c <= col_len (Pandoc.base c))
    by (unfold c, Pandoc.min_len; simpl; lia).
  exact (proj1 (X8_pandoc_render_roundtrip c Hw)).
Defined.

(** X9. For a row that is a [PandocAlignRow], [create_column] raises
    nothing on any line cell: the column it returns has the two borders of
    the cell, the span the base constructor set and the alignment
    [_parse_alignment] reads from the text of the cell.  When the text
    matches the pattern of [-] or of [=], that is the alignment of its
    colons; when the text is a separator text in [-] or [=] without white
    space around it, the column, once its width is the length of the text,
    renders to the text again. *)
Theorem X9_pandoc_create_column_fixed_point :
  forall (C : Type) (base_create_column : Row -> LineCell.t -> result C)
         (base0 : Column) (row : Row) (line_cell : LineCell.t),
    is_PandocAlignRow row = true ->
    exists column,
      Pandoc.create_column base_create_column base0 row line_cell
      = ok (inl column)
      /\ left_border_text (Pandoc.base column)
         = LineCell.left_border_text line_cell
      /\ right_border_text (Pandoc.base column)
         = LineCell.right_border_text line_cell
      /\ colspan (Pandoc.base column) = colspan base0
      /\ col_len (Pandoc.base column) = col_len base0
      /\ Pandoc.separator column = LineCell.text line_cell
      /\ Pandoc._align_follow column
         = Pandoc._parse_alignment (LineCell.text line_cell)
      /\ (forall (lead trail : bool) (b : ascii) (n : nat),
            b = "="%char \/ b = "-"%char ->
            strip (LineCell.text line_cell) = separator_text lead b n trail ->
            Pandoc._align_follow column = colon_alignment lead trail)
      /\ (forall (lead trail : bool) (b : ascii) (n : nat),
            b = "="%char \/ b = "-"%char ->
            LineCell.text line_cell = separator_text lead b n trail ->
            Pandoc.render
              (pandoc_at_width (len (LineCell.text line_cell)) column)
            = LineCell.text line_cell).
Proof.
  intros C bcc base0 row lc Hrow.
  destruct lc as [text lb rb]; cbn [LineCell.text LineCell.left_border_text
                                     LineCell.right_border_text].
  unfold Pandoc.create_column; rewrite Hrow.
  eexists; split; [reflexivity|].
  cbn [LineCell.text LineCell.left_border_text LineCell.right_border_text].
  repeat (split; [reflexivity|]).
  split.
  - intros lead trail b n Hb Htext.
    destruct (border_facts b Hb) as [Hs Hc].
    now apply (pandoc_alignment_accepted b text lead n trail).
  - intros lead trail b n Hb ->.
    destruct (border_facts b Hb) as [Hs Hc].
    apply pandoc_render_fixed.
    + apply base_char_of_contains; [assumption|].
      now apply contains_eq_separator_text.
    + now apply pandoc_parse_alignment_separator_text.
    + reflexivity.
Qed.

Lemma X9_pandoc_create_column_fixed_point_witness :
  let line_cell := LineCell.mk (lit "==:") (lit "+") (lit "+") in
  exists column,
    Pandoc.create_column (fun _ _ => ok tt) (mkColumn 1 0 (lit "|") (lit "|"))
                         (new_row (PandocAlignRow (lit "="))) line_cell
    = ok (inl column)
    /\ Pandoc._align_follow column = Some ALIGN_RIGHT
    /\ Pandoc.render (pandoc_at_width 3 column) = lit "==:".
Proof.
  intros line_cell.
  destruct (X9_pandoc_create_column_fixed_point
              unit (fun _ _ => ok tt) (mkColumn 1 0 (lit "|") (lit "|"))
              (new_row (PandocAlignRow (lit "="))) line_cell eq_refl)
    as (column & Hc & _ & _ & _ & _ & _ & _ & Ha & Hr).
  exists column; split; [exact Hc|]; split.
  - exact (Ha false true "="%char 1%nat (or_introl eq_refl) eq_refl).
  - exact (Hr false true "="%char 1%nat (or_introl eq_refl) eq_refl).
Defined.

Section RowRenderFacts.
Import Pandoc.

Lemma existsb_render_alignment cs :
  Forall (fun c => 3 <= col_len (base c)) cs ->
  existsb (fun col => expresses_alignment (_parse_alignment col)) (map render cs)
  = existsb (fun c => expresses_alignment (_align_follow c)) cs.
Proof.
  induction 1 as [|c cs Hc _ IH]; simpl; [reflexivity|].
  now rewrite IH, (proj1 (pandoc_render_reads_back c Hc)).
Qed.

Lemma rendered_row c cs (eq_sign : bool) :
  Forall (fun c => 3 <= col_len (base c)) (c :: cs) ->
  Forall (fun c => contains "=" (separator c) = eq_sign) (c :: cs) ->
  create_row (map render (c :: cs))
  = if existsb (fun c => expresses_alignment (_align_follow c)) (c :: cs)
    then PandocAlignRow (if eq_sign then lit "=" else lit "-")
    else SeparatorRow (if eq_sign then lit "=" else lit "-").
Proof.
  intros Hw Hb.
  assert (Hm : Forall (fun col =>
                         Regex.re_match
                           (if eq_sign then double_pattern else single_pattern)
                           col = true)
                      (map render (c :: cs))).
  { apply Forall_map, Forall_forall; intros x Hx.
    rewrite Forall_forall in Hw, Hb.
    destruct (pandoc_render_reads_back x (Hw x Hx)) as (_ & _ & H).
    now rewrite (Hb x Hx) in H. }
  assert (Hne : map render (c :: cs) <> []) by discriminate.
  rewrite <- (existsb_render_alignment (c :: cs) Hw).
  destruct eq_sign.
  - rewrite create_row_double by assumption.
    now rewrite (markers_are_alignments "=") by (reflexivity || discriminate || assumption).
  - rewrite create_row_single by assumption.
    now rewrite (markers_are_alignments "-") by (reflexivity || discriminate || assumption).
Qed.

Lemma render_columns_next syntax ind cs r :
  0 < ind ->
  render_columns syntax ind cs r
  = r ++ List.concat (map (fun c => hline_in_border syntax ++ render c) cs).
Proof.
  revert ind r; induction cs as [|c cs IH]; intros ind r Hi; simpl.
  - now rewrite app_nil_r.
  - destruct (Z.eqb_spec ind 0); [lia|]; simpl negb; cbv iota.
    rewrite IH by lia.
    now rewrite <- !app_assoc.
Qed.

Lemma py_join_cons sep x rest :
  py_join sep (x :: rest) = x ++ List.concat (map (fun y => sep ++ y) rest).
Proof.
  revert x; induction rest as [|y rest IH]; intros x.
  - simpl; now rewrite app_nil_r.
  - change (py_join sep (x :: y :: rest))
      with (x ++ sep ++ py_join sep (y :: rest)).
    cbn [map List.concat]; now rewrite IH, <- app_assoc.
Qed.

Lemma render_columns_join syntax cs r :
  render_columns syntax 0 cs r
  = r ++ py_join (hline_in_border syntax) (map render cs).
Proof.
  destruct cs as [|c cs]; [simpl; now rewrite app_nil_r|].
  cbn [render_columns map]; simpl negb; cbv iota.
  rewrite render_columns_next by lia.
  rewrite py_join_cons, map_map, <- app_assoc; reflexivity.
Qed.

Lemma py_sum_cons x xs : py_sum (x :: xs) = x + py_sum xs.
Proof.
  unfold py_sum; simpl.
  assert (H : forall l a, fold_left Z.add l a = a + fold_left Z.add l 0).
  { induction l as [|y l IH]; intros a; simpl; [lia|].
    rewrite (IH (a + y)), (IH y); lia. }
  apply H.
Qed.

Lemma len_joined_renders sep cs :
  Forall (fun c => 0 <= col_len (base c)) cs ->
  len (List.concat (map (fun c => sep ++ render c) cs))
  = len sep * Z.of_nat (List.length cs) + py_sum (map (fun c => col_len (base c)) cs).
Proof.
  induction 1 as [|c cs Hc _ IH];
    [cbn [map List.concat List.length]; unfold len, py_sum; simpl; lia|].
  cbn [map List.concat List.length].
  rewrite !len_app, IH, py_sum_cons, len_render by assumption.
  lia.
Qed.

End RowRenderFacts.

(** X10. The cells a Pandoc alignment row renders to, when every column
    has width 3 or more and all columns have the same border character,
    are classified by [create_row] as a [PandocAlignRow] of that character
    when some column carries an alignment, and as a plain [SeparatorRow]
    when none does: an alignment row without alignment is not read back as
    one. *)
Theorem X10_rendered_row_classification :
  forall (cs : list Pandoc.PandocAlignColumn) (eq_sign : bool),
    cs <> [] ->
    Forall (fun c => Pandoc.min_len c <= col_len (Pandoc.base c)) cs ->
    Forall (fun c => contains "=" (Pandoc.separator c) = eq_sign) cs ->
    Pandoc.create_row (map Pandoc.render cs)
    = if existsb (fun c => expresses_alignment (Pandoc._align_follow c)) cs
      then PandocAlignRow (if eq_sign then lit "=" else lit "-")
      else SeparatorRow (if eq_sign then lit "=" else lit "-").
Proof.
  intros [|c cs] eq_sign Hne Hw Hb; [contradiction|].
  now apply rendered_row.
Qed.

Lemma X10_rendered_row_classification_witness :
  let base0 := mkColumn 1 4 (lit "+") (lit "+") in
  Pandoc.create_row
    (map Pandoc.render [Pandoc.new_empty_column base0 (lit "-");
                        Pandoc.new_empty_column base0 (lit "-")])
  = SeparatorRow (lit "-").
Proof.
  intros base0.
  apply (X10_rendered_row_classification
           [Pandoc.new_empty_column base0 (lit "-");
            Pandoc.new_empty_column base0 (lit "-")] false).
  - discriminate.
  - repeat constructor; simpl; discriminate.
  - repeat constructor.
Defined.

(** X11. [PandocAlignRow.render] returns the outer border, the renderings
    of the columns joined by the inner border, and the outer border again;
    a row without columns renders as two outer borders.  With the [+]
    borders of [PandocTableSyntax] and columns of width 0 or more, the line
    of a row with at least one column is as long as the widths of its
    columns plus one [+] more than it has columns. *)
Theorem X11_pandoc_row_render :
  forall (syntax : Pandoc.Syntax) (cs : list Pandoc.PandocAlignColumn),
    Pandoc.row_render syntax cs
    = Pandoc.hline_out_border syntax
      ++ py_join (Pandoc.hline_in_border syntax) (map Pandoc.render cs)
      ++ Pandoc.hline_out_border syntax
    /\ (cs <> [] ->
        Forall (fun c => 0 <= col_len (Pandoc.base c)) cs ->
        len (Pandoc.row_render Pandoc.PandocTableSyntax cs)
        = py_sum (map (fun c => col_len (Pandoc.base c)) cs)
          + Z.of_nat (List.length cs) + 1).
Proof.
  intros syntax cs.
  assert (E : forall sx, Pandoc.row_render sx cs
                         = Pandoc.hline_out_border sx
                           ++ py_join (Pandoc.hline_in_border sx)
                                      (map Pandoc.render cs)
                           ++ Pandoc.hline_out_border sx).
  { intros sx; unfold Pandoc.row_render.
    now rewrite render_columns_join, <- app_assoc. }
  split; [apply E|].
  intros Hne Hw; rewrite E.
  destruct cs as [|c cs]; [contradiction|].
  inversion Hw as [|? ? Hc Hcs]; subst.
  cbn [map]; rewrite py_join_cons, map_map.
  rewrite !len_app, len_render, (len_joined_renders _ cs), py_sum_cons
    by assumption.
  cbn [Pandoc.hline_out_border Pandoc.hline_in_border Pandoc.PandocTableSyntax
       List.length].
  change (len (lit "+")) with 1; lia.
Qed.

Lemma X11_pandoc_row_render_witness :
  let base0 := mkColumn 1 4 (lit "+") (lit "+") in
  let cs := [Pandoc.init base0 (lit ":--"); Pandoc.init base0 (lit "--:")] in
  Pandoc.row_render Pandoc.PandocTableSyntax cs = lit "+:---+---:+"
  /\ len (Pandoc.row_render Pandoc.PandocTableSyntax cs) = 11.
Proof.
  intros base0 cs; split; [reflexivity|].
  apply (proj2 (X11_pandoc_row_render Pandoc.PandocTableSyntax cs)).
  - discriminate.
  - repeat constructor; simpl; lia.
Defined.

(** ** The drivers at any position *)

Section ClampFacts.

Lemma list_insert_clamped K i old :
  inserted_clamped K i old (list_insert old i K).
Proof.
  unfold inserted_clamped; split; [apply list_insert_split|].
  unfold list_insert.
  set (n := Z.of_nat (List.length old)).
  split; [|split; [|split]]; intros Hi.
  - destruct (Z.ltb_spec i 0); [lia|]; now rewrite Z.min_l by lia.
  - destruct (Z.ltb_spec i 0); [lia|]; rewrite Z.min_r by lia.
    subst n; rewrite Nat2Z.id, firstn_all, skipn_all; reflexivity.
  - destruct (Z.ltb_spec i 0); [|lia]; rewrite Z.max_r by lia.
    now rewrite Z.add_comm.
  - destruct (Z.ltb_spec i 0) as [Hlt|Hge].
    + rewrite Z.max_l by lia; reflexivity.
    + assert (n = 0 /\ i = 0) as [Hn ->] by lia.
      rewrite Z.min_l by lia; reflexivity.
Qed.

Lemma list_insert_In_inv {A} (l : list A) i x y :
  In y (list_insert l i x) -> y = x \/ In y l.
Proof.
  destruct (list_insert_split l i x) as (l1 & l2 & -> & ->).
  rewrite !in_app_iff; simpl; intuition auto.
Qed.

Lemma has_alignment_insert_separator l i s :
  (exists s', In (PandocAlignRow s') (list_insert l i (SeparatorRow s)))
  -> exists s', In (PandocAlignRow s') l.
Proof.
  intros (s' & H); apply list_insert_In_inv in H as [H|H];
    [discriminate | now exists s'].
Qed.

Lemma getitem_ok_iff {A} (l : list A) i :
  (exists x, getitem l i = ok x)
  <-> - Z.of_nat (List.length l) <= i < Z.of_nat (List.length l).
Proof.
  unfold getitem.
  set (n := Z.of_nat (List.length l)).
  set (j := if i <? 0 then i + n else i).
  assert (Hj : (0 <= j < n) <-> (- n <= i < n))
    by (subst j; destruct (Z.ltb_spec i 0); lia).
  rewrite <- Hj.
  destruct (Z.ltb_spec j 0); simpl orb; cbv iota.
  - split; [intros (x & Hx); discriminate | lia].
  - destruct (Z.leb_spec n j); cbv iota.
    + split; [intros (x & Hx); discriminate | lia].
    + destruct (nth_error l (Z.to_nat j)) as [x|] eqn:E.
      * split; [lia | now exists x].
      * apply nth_error_None in E; subst n; lia.
Qed.

Lemma fits_ssize_t_small r : -10 <= r <= 10 -> fits_ssize_t r.
Proof.
  unfold fits_ssize_t; change (2 ^ 63) with 9223372036854775808; lia.
Qed.

Lemma getitem_raises {A} (l : list A) i :
  getitem l i = raise IndexError \/ exists x, getitem l i = ok x.
Proof.
  unfold getitem.
  destruct (_ || _); [now left|].
  destruct (nth_error _ _) as [x|]; [right; now exists x | now left].
Qed.

End ClampFacts.

(** X12. Let [pack] keep the rows of a table.  At every position whose
    index [row_num + 1] fits [Py_ssize_t], in bounds of the table or not,
    the three single-line insertions add exactly one row and keep the old
    rows in their order, and return the position of the call: the new row
    goes to [row_num + 1] when that is an index or the length of the table,
    to the end above it, and is counted from the end when [row_num + 1] is
    negative, down to the front. *)
Theorem X12_insertions_at_any_position :
  forall pack : Table -> Table,
    (forall t, classes (pack t) = classes t) ->
    forall (t : Table) (pos : TablePos),
      fits_ssize_t (row_num pos + 1) ->
      let has_alignment := existsb is_PandocAlignRow (rows t) in
      let mm := MultiMarkdown.editor_insert_single_hline pack t pos in
      let single := Pandoc.editor_insert_single_hline pack t pos in
      let double := Pandoc.editor_insert_double_hline pack t pos in
      inserted_clamped MultiMarkdownAlignRow (row_num pos + 1)
                       (classes t) (classes (fst mm))
      /\ inserted_clamped
           (if has_alignment
            then PandocAlignRow (lit "-") else SeparatorRow (lit "-"))
           (row_num pos + 1) (classes t) (classes (fst single))
      /\ inserted_clamped
           (if has_alignment
            then PandocAlignRow (lit "=") else SeparatorRow (lit "="))
           (row_num pos + 1) (classes t) (classes (fst double))
      /\ snd mm = (lit "Single separator row inserted",
                   mkTablePos (row_num pos) (field_num pos))
      /\ snd single = (lit "Single separator row inserted",
                       mkTablePos (row_num pos) (field_num pos))
      /\ snd double = (lit "Double separator row inserted",
                       mkTablePos (row_num pos) (field_num pos)).
Proof.
  intros pack Hpack t pos _ has_alignment mm single double.
  subst mm single double has_alignment.
  rewrite (mm_single_classes pack Hpack), (pandoc_single_classes pack Hpack),
    (pandoc_double_classes pack Hpack).
  repeat split; try apply list_insert_clamped.
Qed.

Lemma X12_insertions_at_any_position_witness :
  let cell := mkColumn 1 3 (lit "+") (lit "+") in
  let t := mkTable [mkRow DataRow [cell]; mkRow DataRow [cell]] in
  classes (fst (Pandoc.editor_insert_double_hline pack_pad t (mkTablePos 7 0)))
  = [DataRow; DataRow; SeparatorRow (lit "=")]
  /\ classes (fst (Pandoc.editor_insert_double_hline pack_pad t
                                                     (mkTablePos (-2) 0)))
     = [DataRow; SeparatorRow (lit "="); DataRow].
Proof.
  intros cell t.
  assert (F1 : fits_ssize_t (row_num (mkTablePos 7 0) + 1))
    by (apply fits_ssize_t_small; simpl; lia).
  assert (F2 : fits_ssize_t (row_num (mkTablePos (-2) 0) + 1))
    by (apply fits_ssize_t_small; simpl; lia).
  split.
  - destruct (X12_insertions_at_any_position pack_pad pack_pad_classes t
                (mkTablePos 7 0) F1) as (_ & _ & (_ & _ & H & _) & _).
    apply H; simpl; lia.
  - destruct (X12_insertions_at_any_position pack_pad pack_pad_classes t
                (mkTablePos (-2) 0) F2) as (_ & _ & (_ & _ & _ & H & _) & _).
    apply H; simpl; lia.
Defined.

(** X13. Let [pack] keep the rows of a table.  Neither Pandoc insertion
    changes whether the table holds a [PandocAlignRow]: a table without one
    still has none afterwards, a table with one keeps one.  So a second
    insertion chooses its row class as the first did. *)
Theorem X13_pandoc_alignment_flag_kept :
  forall pack : Table -> Table,
    (forall t, classes (pack t) = classes t) ->
    forall (t : Table) (pos pos' : TablePos),
      let has_alignment := existsb is_PandocAlignRow (rows t) in
      let single := fst (Pandoc.editor_insert_single_hline pack t pos) in
      let double := fst (Pandoc.editor_insert_double_hline pack t pos) in
      existsb is_PandocAlignRow (rows single) = has_alignment
      /\ existsb is_PandocAlignRow (rows double) = has_alignment
      /\ classes (fst (Pandoc.editor_insert_double_hline pack single pos'))
         = list_insert
             (list_insert (classes t) (row_num pos + 1)
                (if has_alignment
                 then PandocAlignRow (lit "-") else SeparatorRow (lit "-")))
             (row_num pos' + 1)
             (if has_alignment
              then PandocAlignRow (lit "=") else SeparatorRow (lit "=")).
Proof.
  intros pack Hpack t pos pos' has_alignment single double.
  assert (Hs : classes single
               = list_insert (classes t) (row_num pos + 1)
                   (if has_alignment
                    then PandocAlignRow (lit "-") else SeparatorRow (lit "-")))
    by now apply pandoc_single_classes.
  assert (Hd : classes double
               = list_insert (classes t) (row_num pos + 1)
                   (if has_alignment
                    then PandocAlignRow (lit "=") else SeparatorRow (lit "=")))
    by now apply pandoc_double_classes.
  assert (Hflag : forall t' K,
             classes t'
             = list_insert (classes t) (row_num pos + 1)
                 (if has_alignment then PandocAlignRow K else SeparatorRow K) ->
             existsb is_PandocAlignRow (rows t') = has_alignment).
  { intros t' K E.
    destruct has_alignment eqn:Hh.
    - apply has_alignment_classes; exists K; fold (classes t'); rewrite E.
      apply list_insert_In_new.
    - destruct (existsb is_PandocAlignRow (rows t')) eqn:H'; [|reflexivity].
      apply has_alignment_classes in H'; fold (classes t') in H'.
      rewrite E in H'; apply has_alignment_insert_separator in H'.
      apply has_alignment_classes in H'.
      subst has_alignment; congruence. }
  pose proof (Hflag single _ Hs) as Fs.
  split; [exact Fs|]; split; [exact (Hflag double _ Hd)|].
  rewrite (pandoc_double_classes pack Hpack), Fs, Hs; reflexivity.
Qed.

Lemma X13_pandoc_alignment_flag_kept_witness :
  let cell := mkColumn 1 3 (lit "+") (lit "+") in
  let t := mkTable [mkRow (SeparatorRow (lit "-")) [cell];
                    mkRow DataRow [cell]] in
  existsb is_PandocAlignRow
          (rows (fst (Pandoc.editor_insert_single_hline
                        pack_pad t (mkTablePos 1 0)))) = false.
Proof.
  intros cell t.
  exact (proj1 (X13_pandoc_alignment_flag_kept pack_pad pack_pad_classes t
                  (mkTablePos 1 0) (mkTablePos 0 0))).
Defined.

Section MoveEdgeFacts.

Variable pack : Table -> Table.
Variable insert_empty_row : Table -> Z -> Table.
Hypothesis pack_classes : forall t, classes (pack t) = classes t.

Lemma packed_insert_length t i r :
  List.length (rows (pack (rows_insert t i r))) = S (List.length (rows t)).
Proof.
  rewrite <- classes_length, pack_classes, classes_rows_insert.
  now rewrite list_insert_length, classes_length.
Qed.

Lemma hline_and_move_raises t pos :
  row_num pos + 3 + Z.of_nat (List.length (rows t)) < 0 ->
  MultiMarkdown.editor_insert_hline_and_move pack insert_empty_row t pos
  = raise IndexError.
Proof.
  intros H; unfold MultiMarkdown.editor_insert_hline_and_move.
  rewrite packed_insert_length.
  destruct (Z.ltb_spec (row_num pos + 2) (Z.of_nat (S (List.length (rows t)))));
    [|lia].
  match goal with
  | |- context [getitem ?l ?i] =>
      destruct (getitem_raises l i) as [->|Hx]; [reflexivity|];
      apply getitem_ok_iff in Hx; rewrite packed_insert_length in Hx; lia
  end.
Qed.

Lemma hline_and_move_returns t pos :
  0 <= row_num pos + 3 + Z.of_nat (List.length (rows t)) ->
  exists t',
    MultiMarkdown.editor_insert_hline_and_move pack insert_empty_row t pos
    = ok (t', (lit "Single separator row inserted",
               mkTablePos (row_num pos + 2) 0)).
Proof.
  intros H; unfold MultiMarkdown.editor_insert_hline_and_move.
  rewrite packed_insert_length.
  destruct (Z.ltb_spec (row_num pos + 2) (Z.of_nat (S (List.length (rows t)))));
    [|simpl bind; eauto].
  match goal with
  | |- context [getitem ?l ?i] =>
      destruct (proj2 (getitem_ok_iff l i)) as (r & ->);
      [rewrite packed_insert_length; lia|]
  end.
  simpl bind; destruct (is_separator r); simpl bind; eauto.
Qed.

End MoveEdgeFacts.

(** X14. Let [pack] keep the rows of a table.  At a position whose
    indices [row_num + 1] and [row_num + 2] fit [Py_ssize_t], with [n] rows
    in the table, [editor_insert_hline_and_move] raises [IndexError] when
    [row_num + 3 + n < 0], where the look at the row two below the cursor
    falls off the front of the list, and otherwise, in bounds of the table
    or not, returns the status and the position [(row_num + 2, 0)]. *)
Theorem X14_hline_and_move_errors :
  forall (pack : Table -> Table) (insert_empty_row : Table -> Z -> Table),
    (forall t, classes (pack t) = classes t) ->
    forall (t : Table) (pos : TablePos),
      fits_ssize_t (row_num pos + 1) ->
      fits_ssize_t (row_num pos + 2) ->
      let n := Z.of_nat (List.length (rows t)) in
      (row_num pos + 3 + n < 0 ->
       MultiMarkdown.editor_insert_hline_and_move pack insert_empty_row t pos
       = raise IndexError)
      /\ (0 <= row_num pos + 3 + n ->
          exists t',
            MultiMarkdown.editor_insert_hline_and_move
              pack insert_empty_row t pos
            = ok (t', (lit "Single separator row inserted",
                       mkTablePos (row_num pos + 2) 0))).
Proof.
  intros pack ier Hpack t pos _ _ n; split.
  - now apply hline_and_move_raises.
  - now apply hline_and_move_returns.
Qed.

Lemma X14_hline_and_move_errors_witness :
  let cell := mkColumn 1 3 (lit "|") (lit "|") in
  let t := mkTable [mkRow DataRow [cell]] in
  MultiMarkdown.editor_insert_hline_and_move
    pack_pad insert_empty_row_pad t (mkTablePos (-5) 0) = raise IndexError
  /\ exists t',
       MultiMarkdown.editor_insert_hline_and_move
         pack_pad insert_empty_row_pad t (mkTablePos (-4) 0)
       = ok (t', (lit "Single separator row inserted", mkTablePos (-2) 0)).
Proof.
  intros cell t.
  assert (A1 : fits_ssize_t (row_num (mkTablePos (-5) 0) + 1))
    by (apply fits_ssize_t_small; simpl; lia).
  assert (A2 : fits_ssize_t (row_num (mkTablePos (-5) 0) + 2))
    by (apply fits_ssize_t_small; simpl; lia).
  assert (B1 : fits_ssize_t (row_num (mkTablePos (-4) 0) + 1))
    by (apply fits_ssize_t_small; simpl; lia).
  assert (B2 : fits_ssize_t (row_num (mkTablePos (-4) 0) + 2))
    by (apply fits_ssize_t_small; simpl; lia).
  split.
  - apply (proj1 (X14_hline_and_move_errors pack_pad insert_empty_row_pad
                    pack_pad_classes t (mkTablePos (-5) 0) A1 A2)).
    simpl; lia.
  - apply (proj2 (X14_hline_and_move_errors pack_pad insert_empty_row_pad
                    pack_pad_classes t (mkTablePos (-4) 0) B1 B2)).
    simpl; lia.
Defined.

(** X15. Let [pack] keep the rows of a table and [insert_empty_row] put an
    empty data row at the index it is given.  At an in-bounds position the
    position [editor_insert_hline_and_move] returns is in bounds of the
    table it leaves, and the row there is not a separator: the cursor lands
    on a data row, behind the new separator at the row before it. *)
Theorem X15_cursor_lands_on_data_row :
  forall (pack : Table -> Table) (insert_empty_row : Table -> Z -> Table),
    (forall t, classes (pack t) = classes t) ->
    (forall t i,
        classes (insert_empty_row t i) = list_insert (classes t) i DataRow) ->
    forall (t : Table) (pos : TablePos),
      in_bounds t pos ->
      exists t' message pos' k,
        MultiMarkdown.editor_insert_hline_and_move pack insert_empty_row t pos
        = ok (t', (message, pos'))
        /\ in_bounds t' pos'
        /\ nth_error (classes t') (Z.to_nat (row_num pos')) = Some k
        /\ class_is_separator k = false
        /\ nth_error (classes t') (Z.to_nat (row_num pos' - 1))
           = Some MultiMarkdownAlignRow.
Proof.
  intros pack ier Hpack Hier t pos Hb.
  pose proof Hb as [Hb0 Hb1].
  set (i := Z.to_nat (row_num pos + 1)).
  assert (Hi : (i <= List.length (classes t))%nat)
    by now apply in_bounds_index.
  assert (Hl : List.length (firstn i (classes t)) = i)
    by (rewrite length_firstn; lia).
  assert (Hbounds : forall t' : Table,
             (S i < List.length (classes t'))%nat ->
             in_bounds t' (mkTablePos (row_num pos + 2) 0)).
  { intros t' H; unfold in_bounds; cbn [row_num].
    rewrite classes_length in H; lia. }
  assert (E2 : Z.to_nat (row_num pos + 2) = S i) by lia.
  assert (E1 : Z.to_nat (row_num pos + 2 - 1) = i) by lia.
  destruct (nth_error (classes t) i) as [k|] eqn:Hk.
  - destruct (hline_and_move_inner pack ier Hpack Hier t pos k Hb Hk)
      as (t' & Hrun & Hcl).
    fold i in Hcl.
    assert (Hsk : exists rest, skipn i (classes t) = k :: rest).
    { rewrite <- (firstn_skipn i (classes t)) in Hk.
      rewrite nth_error_app2, Hl, Nat.sub_diag in Hk by lia.
      destruct (skipn i (classes t)) as [|k' rest]; [discriminate|].
      injection Hk as ->; now exists rest. }
    destruct Hsk as (rest & Hsk); rewrite Hsk in Hcl.
    exists t', (lit "Single separator row inserted"),
      (mkTablePos (row_num pos + 2) 0).
    cbn [row_num]; rewrite E1, E2.
    destruct (class_is_separator k) eqn:Hs.
    + exists DataRow; split; [exact Hrun|].
      split; [apply Hbounds; rewrite Hcl, length_app, Hl; simpl; lia|].
      rewrite Hcl, !nth_error_app2, Hl by lia.
      replace (S i - i)%nat with 1%nat by lia; rewrite Nat.sub_diag.
      repeat split.
    + exists k; split; [exact Hrun|].
      split; [apply Hbounds; rewrite Hcl, length_app, Hl; simpl; lia|].
      rewrite Hcl, !nth_error_app2, Hl by lia.
      replace (S i - i)%nat with 1%nat by lia; rewrite Nat.sub_diag.
      repeat split; assumption.
  - assert (Hlast : row_num pos + 1 = Z.of_nat (List.length (rows t))).
    { apply nth_error_None in Hk; rewrite classes_length in *; lia. }
    destruct (hline_and_move_last pack ier Hpack Hier t pos Hb Hlast)
      as (t' & Hrun & Hcl).
    assert (Ei : i = List.length (classes t))
      by (rewrite classes_length; lia).
    exists t', (lit "Single separator row inserted"),
      (mkTablePos (row_num pos + 2) 0), DataRow.
    cbn [row_num]; rewrite E1, E2.
    split; [exact Hrun|].
    split; [apply Hbounds; rewrite Hcl, length_app; simpl; lia|].
    rewrite Hcl, !nth_error_app2 by lia.
    rewrite Ei, Nat.sub_diag.
    replace (S (List.length (classes t)) - List.length (classes t))%nat
      with 1%nat by lia.
    repeat split.
Qed.

Lemma X15_cursor_lands_on_data_row_witness :
  let cell := mkColumn 1 3 (lit "|") (lit "|") in
  let t := mkTable [mkRow DataRow [cell];
                    mkRow MultiMarkdownAlignRow [cell];
                    mkRow DataRow [cell]] in
  exists t' message pos' k,
    MultiMarkdown.editor_insert_hline_and_move
      pack_pad insert_empty_row_pad t (mkTablePos 0 0)
    = ok (t', (message, pos'))
    /\ in_bounds t' pos'
    /\ nth_error (classes t') (Z.to_nat (row_num pos')) = Some k
    /\ class_is_separator k = false
    /\ nth_error (classes t') (Z.to_nat (row_num pos' - 1))
       = Some MultiMarkdownAlignRow.
Proof.
  intros cell t.
  apply (X15_cursor_lands_on_data_row pack_pad insert_empty_row_pad
           pack_pad_classes insert_empty_row_pad_classes t (mkTablePos 0 0)).
  unfold in_bounds; simpl; lia.
Defined.

(** ** Columns the Multi-Markdown parser creates *)

(** X16. [MultiMarkdownTableParser.create_column] passes on what the
    inherited method raises.  On a column of span 1 or more it returns a
    column of span 1 or more, the length of the right border when that is
    above 1 and the span it had otherwise, with the alignment unchanged.
    When that span and that length are below [2^55], [min_len] on the
    returned column divides by no zero, lies between 2 and 5, and [colspan]
    cells of that width cover [total_min_len]. *)
Theorem X16_created_column_min_len :
  forall (base_create_column :
            LineCell.t -> result MultiMarkdown.MultiMarkdownAlignColumn)
         (line_cell : LineCell.t),
    (forall e, base_create_column line_cell = raise e ->
               MultiMarkdown.create_column base_create_column line_cell
               = raise e)
    /\ (forall column,
          base_create_column line_cell = ok column ->
          1 <= colspan (MultiMarkdown.base column) ->
          exists column',
            MultiMarkdown.create_column base_create_column line_cell
            = ok column'
            /\ MultiMarkdown._align_follow column'
               = MultiMarkdown._align_follow column
            /\ colspan (MultiMarkdown.base column')
               = (if 1 <? len (LineCell.right_border_text line_cell)
                  then len (LineCell.right_border_text line_cell)
                  else colspan (MultiMarkdown.base column))
            /\ 1 <= colspan (MultiMarkdown.base column')
            /\ (colspan (MultiMarkdown.base column) < 2 ^ 55 ->
                len (LineCell.right_border_text line_cell) < 2 ^ 55 ->
                exists m,
                  MultiMarkdown.min_len column' = ok m
                  /\ 2 <= m <= 5
                  /\ MultiMarkdown.total_min_len column'
                     <= m * colspan (MultiMarkdown.base column'))).
Proof.
  intros bcc lc; split.
  - intros e He; unfold MultiMarkdown.create_column; now rewrite He.
  - intros column Hc Hspan.
    unfold MultiMarkdown.create_column; rewrite Hc; simpl bind.
    set (k := len (LineCell.right_border_text lc)).
    assert (Hmin : forall c : MultiMarkdown.MultiMarkdownAlignColumn,
               1 <= colspan (MultiMarkdown.base c) < 2 ^ 55 ->
               exists m, MultiMarkdown.min_len c = ok m /\ 2 <= m <= 5
                         /\ MultiMarkdown.total_min_len c
                            <= m * colspan (MultiMarkdown.base c)).
    { intros c H1; rewrite mm_min_len_ceiling by assumption.
      eexists; split; [reflexivity|].
      unfold MultiMarkdown.total_min_len.
      pose proof (ceiling_bounds (5 + colspan (MultiMarkdown.base c) - 1)
                    (colspan (MultiMarkdown.base c)) ltac:(lia)) as Hb.
      nia. }
    destruct (Z.ltb_spec 1 k) as [Hk|Hk].
    + set (column' := MultiMarkdown.mkMMAlign
                        (set_colspan k (MultiMarkdown.base column))
                        (MultiMarkdown._align_follow column)).
      assert (Hs : colspan (MultiMarkdown.base column') = k) by reflexivity.
      exists column'.
      split; [reflexivity|]; split; [reflexivity|]; split; [exact Hs|].
      split; [lia|].
      intros _ Hk'; apply Hmin; rewrite Hs; lia.
    + exists column.
      split; [reflexivity|]; split; [reflexivity|]; split; [reflexivity|].
      split; [exact Hspan|].
      intros Hc' _; apply Hmin; lia.
Qed.

Lemma X16_created_column_min_len_witness :
  let base0 := mkColumn 1 0 (lit "|") (lit "|") in
  let line_cell := LineCell.mk (lit ":--") (lit "|") (lit "|||") in
  exists column' m,
    MultiMarkdown.create_column
      (fun lc => MultiMarkdown.init base0 (LineCell.text lc)) line_cell
    = ok column'
    /\ colspan (MultiMarkdown.base column') = 3
    /\ MultiMarkdown.min_len column' = ok m
    /\ 2 <= m <= 5.
Proof.
  intros base0 line_cell.
  destruct (proj2 (X16_created_column_min_len
                     (fun lc => MultiMarkdown.init base0 (LineCell.text lc))
                     line_cell)
              (MultiMarkdown.mkMMAlign base0 (Some ALIGN_LEFT))
              eq_refl ltac:(simpl; lia))
    as (column' & Hc & _ & Hs & _ & Hmin).
  destruct Hmin as (m & Hm & Hb & _); [reflexivity | reflexivity|].
  exists column', m; repeat split; try assumption; apply Hb.
Defined.

(** X17. The Multi-Markdown constructor returns a column exactly when the
    stripped text is not empty; the only exception it raises is
    [IndexError]; the column keeps the base state it was given. *)
Theorem X17_constructor_domain :
  forall (base0 : Column) (data : str),
    ((exists c, MultiMarkdown.init base0 data = ok c) <-> strip data <> [])
    /\ (forall e, MultiMarkdown.init base0 data = raise e -> e = IndexError)
    /\ (forall c, MultiMarkdown.init base0 data = ok c ->
                  MultiMarkdown.base c = base0).
Proof.
  intros base0 data; unfold MultiMarkdown.init.
  destruct (list_eq_dec ascii_dec (strip data) []) as [E|E].
  - rewrite (mm_init_align_empty data E); simpl bind.
    split; [split; [intros (c & Hc); discriminate | contradiction]|].
    split; [intros e He; now injection He | discriminate].
  - destruct (mm_init_align_total data E) as (a & ->); simpl bind.
    split; [split; [auto | eauto]|].
    split; [discriminate | intros c Hc; injection Hc as <-; reflexivity].
Qed.

Lemma X17_constructor_domain_witness :
  exists c, MultiMarkdown.init (mkColumn 1 0 [] []) (lit " x ") = ok c.
Proof.
  apply (proj2 (proj1 (X17_constructor_domain (mkColumn 1 0 [] []) (lit " x ")))).
  discriminate.
Defined.
